(** * PanelGroup: the panel-group layout and resize engine

    A shallow embedding of [PanelGroup.tsx] (react-resizable-panels): the
    component's state, its two layout effects, the persistence effect and the
    callbacks it hands to panels and resize handles.

    - JavaScript numbers are IEEE 754 binary64 values: [float] with the
      kernel's primitive operations.
    - Arrays and [Map]s are objects: a value together with the address it was
      allocated at, so that [===] / [!==] on them is a comparison of
      addresses.  The component never mutates an array or a map after it has
      been published (it copies, then edits the copy), so the contents travel
      with the address.
    - The component's code runs in a small state-and-exception monad over the
      group's state; the calls it makes to React's state setters, to the
      event and to the persistence helper are recorded in a log. *)

From Stdlib Require Import List String Bool Arith Lia Floats.
Import ListNotations.

Set Warnings "-inexact-float".

Local Open Scope string_scope.
Local Open Scope float_scope.
Local Open Scope nat_scope.

(** ** Values *)

(** [Direction] of ./types: "horizontal" | "vertical". *)
Inductive Direction : Type := horizontal | vertical.

(** Modelled from the spec: the declaration of [PanelData] (./types) is not
    among the sources.  The component reads [defaultSize] (a number or
    [null]) and [minSize]; [id], [order], [maxSize] and [collapsible] are the
    remaining fields of the spec's PanelSpec (section 3). *)
Record PanelData : Type := mkPanelData {
  defaultSize : option float;
  id : string;
  minSize : float;
  maxSize : float;
  collapsible : bool;
  order : option float
}.

(** JavaScript's [===] on numbers: IEEE equality ([0 === -0], [NaN !== NaN]). *)
Definition strictEq (x y : float) : bool := PrimFloat.eqb x y.

(** [a > b] on numbers. *)
Definition gt (a b : float) : bool := PrimFloat.ltb b a.

(** An object: the address it lives at and what it holds. *)
Record Obj (A : Type) : Type := mkObj { addrOf : nat; contents : A }.
Arguments mkObj {A} _ _.
Arguments addrOf {A} _.
Arguments contents {A} _.

(** [x === y] on objects. *)
Definition sameRef {A : Type} (x y : Obj A) : bool := addrOf x =? addrOf y.

(** A JavaScript [Map] with string keys: entries in insertion order. *)
Module JsMap.
Section Ops.
Context {V : Type}.

Definition t : Type := list (string * V).

Fixpoint has (m : t) (k : string) : bool :=
  match m with
  | [] => false
  | (k', _) :: rest => if String.eqb k' k then true else has rest k
  end.

(** [m.set(k, v)]: an existing key keeps its place, a new one goes last. *)
Fixpoint set (m : t) (k : string) (v : V) : t :=
  match m with
  | [] => [(k, v)]
  | (k', v') :: rest =>
      if String.eqb k' k then (k', v) :: rest else (k', v') :: set rest k v
  end.

Fixpoint delete (m : t) (k : string) : t :=
  match m with
  | [] => []
  | (k', v') :: rest =>
      if String.eqb k' k then rest else (k', v') :: delete rest k
  end.

Definition size (m : t) : nat := List.length m.

Definition values (m : t) : list V := map snd m.

End Ops.
Arguments t : clear implicits.
End JsMap.

Definition PanelDataMap : Type := JsMap.t PanelData.

(** [CommittedValues]: what [committedValuesRef.current] holds. *)
Record CommittedValues : Type := mkCommitted {
  cv_direction : Direction;
  cv_panels : Obj PanelDataMap;
  cv_sizes : Obj (list float)
}.

(** The component's props ([children] and [className] only reach the markup).
    [groupId] is the result of [useUniqueId(idFromProps)]. *)
Record Props : Type := mkProps {
  autoSaveId : option string;
  direction : Direction;
  groupId : string
}.

(** [if (autoSaveId)]: [undefined] and the empty string are falsy. *)
Definition truthy (s : option string) : option string :=
  match s with
  | Some k => if String.eqb k "" then None else Some k
  | None => None
  end.

(** The persistence medium (localStorage): keys to strings. *)
Definition Storage : Type := list (string * string).

(** Calls that leave the component, in the order they are made. *)
Inductive Call : Type :=
| CallPreventDefault
| CallSetActiveHandleId (h : option string)
| CallSetPanels (m : Obj PanelDataMap)
| CallSetSizes (s : Obj (list float))
| CallSavePanelGroupLayout (key : string) (panelsArray : list PanelData)
    (s : list float).

(** ** The group's state *)

Record Group : Type := mkGroup {
  nextAddr : nat;                         (* the allocator's next address *)
  activeHandleId : option string;         (* useState<string | null>(null) *)
  panels : Obj PanelDataMap;              (* useState(new Map()) *)
  sizes : Obj (list float);               (* useState([]) *)
  dragOffsetRef : float;                  (* useRef(0) *)
  committedValuesRef : CommittedValues;   (* useRef({direction, panels, sizes}) *)
  storage : Storage;
  calls : list Call
}.

Definition withNextAddr (n : nat) (g : Group) : Group :=
  mkGroup n (activeHandleId g) (panels g) (sizes g) (dragOffsetRef g)
    (committedValuesRef g) (storage g) (calls g).
Definition withActiveHandleId (h : option string) (g : Group) : Group :=
  mkGroup (nextAddr g) h (panels g) (sizes g) (dragOffsetRef g)
    (committedValuesRef g) (storage g) (calls g).
Definition withPanels (m : Obj PanelDataMap) (g : Group) : Group :=
  mkGroup (nextAddr g) (activeHandleId g) m (sizes g) (dragOffsetRef g)
    (committedValuesRef g) (storage g) (calls g).
Definition withSizes (s : Obj (list float)) (g : Group) : Group :=
  mkGroup (nextAddr g) (activeHandleId g) (panels g) s (dragOffsetRef g)
    (committedValuesRef g) (storage g) (calls g).
Definition withDragOffsetRef (d : float) (g : Group) : Group :=
  mkGroup (nextAddr g) (activeHandleId g) (panels g) (sizes g) d
    (committedValuesRef g) (storage g) (calls g).
Definition withCommittedValuesRef (c : CommittedValues) (g : Group) : Group :=
  mkGroup (nextAddr g) (activeHandleId g) (panels g) (sizes g)
    (dragOffsetRef g) c (storage g) (calls g).
Definition withStorage (s : Storage) (g : Group) : Group :=
  mkGroup (nextAddr g) (activeHandleId g) (panels g) (sizes g)
    (dragOffsetRef g) (committedValuesRef g) s (calls g).
Definition logCall (c : Call) (g : Group) : Group :=
  mkGroup (nextAddr g) (activeHandleId g) (panels g) (sizes g)
    (dragOffsetRef g) (committedValuesRef g) (storage g) (calls g ++ [c]).

(** ** The monad the component's code runs in *)

Inductive Completion (A : Type) : Type :=
| Normal (a : A)
| Thrown (msg : string).
Arguments Normal {A} _.
Arguments Thrown {A} _.

Definition M (A : Type) : Type := Group -> Completion A * Group.

Definition ret {A : Type} (a : A) : M A := fun g => (Normal a, g).

Definition bind {A B : Type} (c : M A) (k : A -> M B) : M B :=
  fun g =>
    match c g with
    | (Normal a, g') => k a g'
    | (Thrown msg, g') => (Thrown msg, g')
    end.

Definition throw {A : Type} (msg : string) : M A := fun g => (Thrown msg, g).

Definition gets {A : Type} (f : Group -> A) : M A := fun g => (Normal (f g), g).

Definition modify (f : Group -> Group) : M unit := fun g => (Normal tt, f g).

Declare Scope js_scope.
Delimit Scope js_scope with js.
Notation "x <- c ;; k" := (bind c (fun x => k))
  (at level 61, c at next level, right associativity) : js_scope.
Notation "c ;; k" := (bind c (fun _ => k))
  (at level 61, right associativity) : js_scope.
Local Open Scope js_scope.

(** A new array or map: the next free address. *)
Definition alloc {A : Type} (a : A) : M (Obj A) :=
  fun g => (Normal (mkObj (nextAddr g) a), withNextAddr (S (nextAddr g)) g).

(** React's setters.  A setter called with a function applies it to the
    current state. *)
Definition setActiveHandleId (h : option string) : M unit :=
  modify (fun g => logCall (CallSetActiveHandleId h) (withActiveHandleId h g)).

Definition setSizes (s : Obj (list float)) : M unit :=
  modify (fun g => logCall (CallSetSizes s) (withSizes s g)).

Definition setPanels (updater : Obj PanelDataMap -> M (Obj PanelDataMap))
  : M unit :=
  prevPanels <- gets panels ;;
  nextPanels <- updater prevPanels ;;
  modify (fun g => logCall (CallSetPanels nextPanels) (withPanels nextPanels g)).

(** ** The component *)

Section PanelGroup.

(** The helpers the component imports from ./utils/group, ./utils/coordinates
    and ./utils/serialization, and the DOM it measures, are outside the
    sources: the component is modelled over any of them. *)
Variable ResizeEvent : Type.
Variable panelsMapToSortedArray : PanelDataMap -> list PanelData.
Variable loadPanelLayout :
  Storage -> string -> list PanelData -> option (list float).
Variable savePanelGroupLayout :
  string -> list PanelData -> list float -> Storage -> Storage.
Variable getResizeHandlePanelIds :
  string -> string -> list PanelData -> option string * option string.
Variable getMovement :
  ResizeEvent -> string -> string -> Direction -> float -> float.
Variable getDragOffset : ResizeEvent -> string -> Direction -> float.
(** [getPanelGroup(groupId).getBoundingClientRect()]: width and height. *)
Variable getBoundingClientRect : string -> float * float.
Variable adjustByDelta :
  Obj PanelDataMap -> string -> string -> float -> Obj (list float) ->
  M (Obj (list float)).

Variable props : Props.

(** Lines 70-74: after every render the committed values follow the state. *)
Definition commitValues : M unit :=
  modify (fun g =>
    withCommittedValuesRef
      (mkCommitted (direction props) (panels g) (sizes g)) g).

(** Lines 106-118: the three accumulators of the [forEach], as
    (panelsWithNullDefaultSize, totalDefaultSize, totalMinSize). *)
Definition accumulate (acc : float * float * float) (panel : PanelData)
  : float * float * float :=
  let '(panelsWithNullDefaultSize, totalDefaultSize, totalMinSize) := acc in
  let totalMinSize := (totalMinSize + minSize panel)%float in
  match defaultSize panel with
  | None => ((panelsWithNullDefaultSize + 1)%float, totalDefaultSize, totalMinSize)
  | Some d => (panelsWithNullDefaultSize, (totalDefaultSize + d)%float, totalMinSize)
  end.

(** Lines 87-140: the initial sizes, once the panels have registered. *)
Definition initialSizesEffect : M unit :=
  cv <- gets committedValuesRef ;;
  let sizes := cv_sizes cv in
  panels <- gets panels ;;
  if List.length (contents sizes) =? JsMap.size (contents panels) then ret tt
  else
    defaultSizes <-
      match truthy (autoSaveId props) with
      | Some autoSaveId =>
          let panelsArray := panelsMapToSortedArray (contents panels) in
          st <- gets storage ;;
          match loadPanelLayout st autoSaveId panelsArray with
          | Some loaded => r <- alloc loaded ;; ret (Some r)
          | None => ret None
          end
      | None => ret None
      end ;;
    match defaultSizes with
    | Some defaultSizes => setSizes defaultSizes
    | None =>
        let panelsArray := panelsMapToSortedArray (contents panels) in
        let '(panelsWithNullDefaultSize, totalDefaultSize, totalMinSize) :=
          fold_left accumulate panelsArray (0, 0, 0)%float in
        if gt totalDefaultSize 100 then
          throw "The sum of the defaultSize of all panels in a group cannot exceed 100."
        else if gt totalMinSize 100 then
          throw "The sum of the minSize of all panels in a group cannot exceed 100."
        else
          nextSizes <-
            alloc
              (map
                 (fun panel =>
                    match defaultSize panel with
                    | None =>
                        ((100 - totalDefaultSize) / panelsWithNullDefaultSize)%float
                    | Some d => d
                    end)
                 panelsArray) ;;
          setSizes nextSizes
    end.

(** Lines 142-152: mirror a settled layout to the store. *)
Definition saveEffect : M unit :=
  match truthy (autoSaveId props) with
  | Some autoSaveId =>
      sizes <- gets sizes ;;
      panels <- gets panels ;;
      if (List.length (contents sizes) =? 0)
         || negb (List.length (contents sizes) =? JsMap.size (contents panels))
      then ret tt
      else
        let panelsArray := panelsMapToSortedArray (contents panels) in
        modify (fun g =>
          logCall (CallSavePanelGroupLayout autoSaveId panelsArray (contents sizes))
            (withStorage
               (savePanelGroupLayout autoSaveId panelsArray (contents sizes)
                  (storage g))
               g))
  | None => ret tt
  end.

(** Lines 165-176. *)
Definition registerPanel (id : string) (panel : PanelData) : M unit :=
  setPanels (fun prevPanels =>
    if JsMap.has (contents prevPanels) id then ret prevPanels
    else
      nextPanels <- alloc (JsMap.set (contents prevPanels) id panel) ;;
      ret nextPanels).

(** Lines 234-245. *)
Definition unregisterPanel (id : string) : M unit :=
  setPanels (fun prevPanels =>
    if negb (JsMap.has (contents prevPanels) id) then ret prevPanels
    else
      nextPanels <- alloc (JsMap.delete (contents prevPanels) id) ;;
      ret nextPanels).

(** Lines 180-227: the handler a resize handle gets from
    [registerResizeHandle(handleId)]. *)
Definition resizeHandler (handleId : string) (event : ResizeEvent) : M unit :=
  modify (logCall CallPreventDefault) ;;
  cv <- gets committedValuesRef ;;
  let direction := cv_direction cv in
  let panels := cv_panels cv in
  let prevSizes := cv_sizes cv in
  let panelsArray := panelsMapToSortedArray (contents panels) in
  match getResizeHandlePanelIds (groupId props) handleId panelsArray with
  | (Some idBefore, Some idAfter) =>
      dragOffset <- gets dragOffsetRef ;;
      let movement :=
        getMovement event (groupId props) handleId direction dragOffset in
      if strictEq movement 0 then ret tt
      else
        let rect := getBoundingClientRect (groupId props) in
        let size :=
          match direction with
          | horizontal => fst rect
          | vertical => snd rect
          end in
        let delta := ((movement / size) * 100)%float in
        nextSizes <- adjustByDelta panels idBefore idAfter delta prevSizes ;;
        if negb (sameRef prevSizes nextSizes) then setSizes nextSizes
        else ret tt
  | _ => ret tt
  end.

(** Lines 254-258. *)
Definition startDragging (id : string) (event : ResizeEvent) : M unit :=
  setActiveHandleId (Some id) ;;
  modify (fun g =>
    withDragOffsetRef (getDragOffset event id (direction props)) g).

(** Lines 259-261. *)
Definition stopDragging : M unit :=
  setActiveHandleId None.

End PanelGroup.

(** Line 140: the initial-size effect runs again when one of its
    dependencies, [autoSaveId] and [panels], is a different value; for the
    map that is a different object. *)
Definition panelsDepChanged (prev next : Group) : bool :=
  negb (sameRef (panels prev) (panels next)).

(** The state a handler or effect leaves behind, and how it completed. *)
Definition exec {A : Type} (c : M A) (g : Group) : Group := snd (c g).

Definition completion {A : Type} (c : M A) (g : Group) : Completion A :=
  fst (c g).

Definition threw {A : Type} (r : Completion A) : bool :=
  match r with
  | Normal _ => false
  | Thrown _ => true
  end.

(** ** The delta distribution, from its contract *)

Section Adjust.

(** The clamping and cascading arithmetic of section 4.2, which the contract
    leaves to the implementation: the effective delta for a request, and the
    sizes once that delta is applied. *)
Variable resolveDelta :
  PanelDataMap -> string -> string -> float -> list float -> float.
Variable redistribute :
  PanelDataMap -> string -> string -> float -> list float -> list float.

(** Modelled from the spec: [adjustByDelta] (./utils/group) is not among the
    sources.  Section 4.2: [adjust(panels, idBefore, idAfter, deltaPercent,
    currentSizes) -> nextSizes]; the requested delta is resolved to an
    effective one; if that is exactly zero the input sequence itself is
    returned, otherwise a new sequence is produced. *)
Definition adjust (panels : Obj PanelDataMap) (idBefore idAfter : string)
  (deltaPercent : float) (currentSizes : Obj (list float))
  : M (Obj (list float)) :=
  let effective :=
    resolveDelta (contents panels) idBefore idAfter deltaPercent
      (contents currentSizes) in
  if strictEq effective 0 then ret currentSizes
  else
    alloc
      (redistribute (contents panels) idBefore idAfter effective
         (contents currentSizes)).

End Adjust.

(** ** Quantities of the initial-size computation *)

(** The sum of the explicit default sizes, in array order. *)
Definition totalDefault (panelsArray : list PanelData) : float :=
  fold_left
    (fun acc panel =>
       match defaultSize panel with
       | Some d => (acc + d)%float
       | None => acc
       end)
    panelsArray 0%float.

(** The number of panels without a default size, counted as the code counts
    it: a number incremented once per such panel. *)
Definition nullCount (panelsArray : list PanelData) : float :=
  fold_left
    (fun acc panel =>
       match defaultSize panel with
       | Some _ => acc
       | None => (acc + 1)%float
       end)
    panelsArray 0%float.

(** The sum of the minimum sizes, in array order. *)
Definition totalMin (panelsArray : list PanelData) : float :=
  fold_left (fun acc panel => (acc + minSize panel)%float) panelsArray 0%float.

(** What a panel is to receive: its default, or an equal share of the rest. *)
Definition defaultShare (panelsArray : list PanelData) (panel : PanelData)
  : float :=
  match defaultSize panel with
  | Some d => d
  | None => ((100 - totalDefault panelsArray) / nullCount panelsArray)%float
  end.

(** No layout is restored: persistence is off, or nothing loads. *)
Definition nothingRestored
  (loadPanelLayout : Storage -> string -> list PanelData -> option (list float))
  (props : Props) (panelsArray : list PanelData) (g : Group) : Prop :=
  match truthy (autoSaveId props) with
  | Some key => loadPanelLayout (storage g) key panelsArray = None
  | None => True
  end.

(** ** A sample environment, to run the component on concrete groups

    The statements below hold for every choice of the imported helpers; the
    concrete runs use the following ones. *)

(** A pointer event: where the pointer is. *)
Record PointerEvent : Type := mkPointer { clientX : float; clientY : float }.

Definition coordinate (e : PointerEvent) (d : Direction) : float :=
  match d with
  | horizontal => clientX e
  | vertical => clientY e
  end.

(** Panels without an ordering hint come in registration order. *)
Definition registrationOrder (m : PanelDataMap) : list PanelData :=
  JsMap.values m.

(** A store that holds a layout of 25 and 75 under the keys it knows. *)
Definition sampleLoad (st : Storage) (key : string) (_ : list PanelData)
  : option (list float) :=
  if existsb (fun kv => String.eqb (fst kv) key) st
  then Some [25; 75]%float
  else None.

Definition sampleSave (key : string) (_ : list PanelData) (_ : list float)
  (st : Storage) : Storage :=
  (key, "saved") :: st.

(** One handle, between the first two panels. *)
Definition sampleHandleIds (_ _ : string) (panelsArray : list PanelData)
  : option string * option string :=
  match panelsArray with
  | before :: after :: _ => (Some (id before), Some (id after))
  | _ => (None, None)
  end.

(** The handle sits at pixel 100 of a group 200 pixels wide and 100 high. *)
Definition sampleMovement (e : PointerEvent) (_ _ : string) (d : Direction)
  (dragOffset : float) : float :=
  ((coordinate e d - dragOffset) - 100)%float.

Definition sampleDragOffset (e : PointerEvent) (_ : string) (d : Direction)
  : float :=
  (coordinate e d - 100)%float.

Definition sampleRect (_ : string) : float * float := (200, 100)%float.

Definition fmin (a b : float) : float := if PrimFloat.ltb a b then a else b.

Fixpoint sizeOf (panelId : string) (panelsArray : list PanelData)
  (sizes : list float) : option (PanelData * float) :=
  match panelsArray, sizes with
  | panel :: panelsArray', size :: sizes' =>
      if String.eqb (id panel) panelId then Some (panel, size)
      else sizeOf panelId panelsArray' sizes'
  | _, _ => None
  end.

(** The pair next to the handle absorbs what its bounds allow (the first
    clause of section 4.2, without cascade or collapse). *)
Definition pairResolve (panels : PanelDataMap) (idBefore idAfter : string)
  (delta : float) (sizes : list float) : float :=
  let panelsArray := registrationOrder panels in
  match sizeOf idBefore panelsArray sizes, sizeOf idAfter panelsArray sizes with
  | Some (before, sizeBefore), Some (after, sizeAfter) =>
      if PrimFloat.ltb 0 delta then
        fmin delta (fmin (maxSize before - sizeBefore) (sizeAfter - minSize after))
      else if PrimFloat.ltb delta 0 then
        (- fmin (- delta)
             (fmin (sizeBefore - minSize before) (maxSize after - sizeAfter)))%float
      else 0%float
  | _, _ => 0%float
  end.

Fixpoint shift (idBefore idAfter : string) (effective : float)
  (panelsArray : list PanelData) (sizes : list float) : list float :=
  match panelsArray, sizes with
  | panel :: panelsArray', size :: sizes' =>
      (if String.eqb (id panel) idBefore then (size + effective)%float
       else if String.eqb (id panel) idAfter then (size - effective)%float
       else size)
      :: shift idBefore idAfter effective panelsArray' sizes'
  | _, _ => sizes
  end.

Definition pairRedistribute (panels : PanelDataMap) (idBefore idAfter : string)
  (effective : float) (sizes : list float) : list float :=
  shift idBefore idAfter effective (registrationOrder panels) sizes.

(** A panel with the given id, default size and bounds. *)
Definition panel (panelId : string) (default : option float) (min max : float)
  : PanelData :=
  mkPanelData default panelId min max false None.

(** The first render: an empty map and an empty array. *)
Definition initialGroup (props : Props) (st : Storage) : Group :=
  mkGroup 2 None (mkObj 0 []) (mkObj 1 []) 0%float
    (mkCommitted (direction props) (mkObj 0 []) (mkObj 1 [])) st [].

Fixpoint registerAll (panelsArray : list PanelData) : M unit :=
  match panelsArray with
  | [] => ret tt
  | p :: rest => registerPanel (id p) p ;; registerAll rest
  end.

(** The panels have registered and the render that follows has committed. *)
Definition mounted (props : Props) (st : Storage) (panelsArray : list PanelData)
  : Group :=
  exec (registerAll panelsArray ;; commitValues props) (initialGroup props st).

Definition sampleInitialSizes (props : Props) : M unit :=
  initialSizesEffect registrationOrder sampleLoad props.

(** Mounted, sized by the initial-size effect, and committed again. *)
Definition settled (props : Props) (st : Storage) (panelsArray : list PanelData)
  : Group :=
  exec (sampleInitialSizes props ;; commitValues props)
    (mounted props st panelsArray).

Definition sampleResize (props : Props) : string -> PointerEvent -> M unit :=
  resizeHandler PointerEvent registrationOrder sampleHandleIds sampleMovement
    sampleRect (adjust pairResolve pairRedistribute) props.

Definition plainProps : Props := mkProps None horizontal "group".
Definition savingProps : Props := mkProps (Some "layout") horizontal "group".

Definition threePanels : list PanelData :=
  [panel "a" None 0 100; panel "b" None 0 100; panel "c" None 0 100]%float.
Definition seventyAndRest : list PanelData :=
  [panel "left" (Some 70%float) 0 100; panel "right" None 0 100]%float.
Definition sixtyAndFifty : list PanelData :=
  [panel "left" (Some 60%float) 0 100; panel "right" (Some 50%float) 0 100]%float.
Definition minAboveMax : list PanelData :=
  [panel "a" None 60 40; panel "b" None 10 100]%float.
Definition halves : list PanelData :=
  [panel "a" None 10 100; panel "b" None 50 100]%float.
Definition fortyAndSixty : list PanelData :=
  [panel "a" (Some 40%float) 0 100; panel "b" (Some 60%float) 0 100]%float.

(** The ids of a panels map are pairwise different, as the keys of a [Map]
    are. *)
Definition uniqueIds (m : PanelDataMap) : Prop := NoDup (map fst m).

(** The two messages of lines 121-127. *)
Definition defaultSizeMessage : string :=
  "The sum of the defaultSize of all panels in a group cannot exceed 100.".
Definition minSizeMessage : string :=
  "The sum of the minSize of all panels in a group cannot exceed 100.".

Definition sampleSaveEffect (props : Props) : M unit :=
  saveEffect registrationOrder sampleSave props.

Definition twentyAndThirty : list PanelData :=
  [panel "a" (Some 20%float) 0 100; panel "b" (Some 30%float) 0 100]%float.
Definition oversizedTwice : list PanelData :=
  [panel "a" (Some 60%float) 60 100; panel "b" (Some 50%float) 50 100]%float.
Definition onlyMinimaOversized : list PanelData :=
  [panel "a" None 60 100; panel "b" None 50 100]%float.
Definition lateComer : PanelData := panel "late" None 0 100.

(** * Properties *)

(** ** Maps and state updates *)

Lemma withPanels_same (g : Group) : withPanels (panels g) g = g.
Proof. destruct g; reflexivity. Qed.

Lemma sameRef_refl {A : Type} (x : Obj A) : sameRef x x = true.
Proof. unfold sameRef. apply Nat.eqb_refl. Qed.

Lemma delete_shrinks {V : Type} (m : JsMap.t V) (k : string) :
  JsMap.has m k = true -> S (JsMap.size (JsMap.delete m k)) = JsMap.size m.
Proof.
  unfold JsMap.size.
  induction m as [| [k' v'] rest IH]; simpl; intro Hhas.
  - discriminate.
  - destruct (String.eqb k' k).
    + reflexivity.
    + simpl. f_equal. apply IH, Hhas.
Qed.

(** The three accumulators of the [forEach] are the three sums. *)
Lemma fold_accumulate (panelsArray : list PanelData) :
  fold_left accumulate panelsArray (0, 0, 0)%float =
  (nullCount panelsArray, totalDefault panelsArray, totalMin panelsArray).
Proof.
  unfold nullCount, totalDefault, totalMin.
  generalize 0%float at 1 4. generalize 0%float at 1 3. generalize 0%float.
  induction panelsArray as [| p rest IH]; intros m d n; simpl.
  - reflexivity.
  - destruct (defaultSize p) as [x |]; apply IH.
Qed.

(** ** The initial-size effect *)

Section InitialSizes.

Variable panelsMapToSortedArray : PanelDataMap -> list PanelData.
Variable loadPanelLayout :
  Storage -> string -> list PanelData -> option (list float).
Variable props : Props.

Local Abbreviation effect :=
  (initialSizesEffect panelsMapToSortedArray loadPanelLayout props).
Local Abbreviation sortedPanels g := (panelsMapToSortedArray (contents (panels g))).

(** The effect has work to do: the committed sizes and the panels differ in
    number (line 89). *)
Local Abbreviation unsettled g :=
  (List.length (contents (cv_sizes (committedValuesRef g)))
   <> JsMap.size (contents (panels g))).

(** Committing a new array [l] of sizes. *)
Local Abbreviation committing l g :=
  (logCall (CallSetSizes (mkObj (nextAddr g) l))
     (withSizes (mkObj (nextAddr g) l) (withNextAddr (S (nextAddr g)) g))).

(** With nothing restored, the effect is the computation from defaults. *)
Lemma initialSizesEffect_defaults (g : Group) :
  unsettled g ->
  nothingRestored loadPanelLayout props (sortedPanels g) g ->
  effect g =
  if gt (totalDefault (sortedPanels g)) 100 then
    (Thrown "The sum of the defaultSize of all panels in a group cannot exceed 100.", g)
  else if gt (totalMin (sortedPanels g)) 100 then
    (Thrown "The sum of the minSize of all panels in a group cannot exceed 100.", g)
  else
    (Normal tt,
     committing (map (defaultShare (sortedPanels g)) (sortedPanels g)) g).
Proof.
  intros Hlen Hnone.
  apply Nat.eqb_neq in Hlen.
  unfold initialSizesEffect, nothingRestored in *.
  unfold bind at 1. unfold gets at 1.
  unfold bind at 1. unfold gets at 1.
  rewrite Hlen.
  assert (Hload :
    (match truthy (autoSaveId props) with
     | Some autoSaveId =>
         st <- gets storage ;;
         match loadPanelLayout st autoSaveId (sortedPanels g) with
         | Some loaded => r <- alloc loaded ;; ret (Some r)
         | None => ret None
         end
     | None => ret None
     end) g = (Normal None, g)).
  { destruct (truthy (autoSaveId props)) as [key |]; [| reflexivity].
    unfold bind, gets. rewrite Hnone. reflexivity. }
  unfold bind at 1. rewrite Hload.
  rewrite fold_accumulate.
  destruct (gt (totalDefault (sortedPanels g)) 100); [reflexivity |].
  destruct (gt (totalMin (sortedPanels g)) 100); reflexivity.
Qed.

(** With a layout restored, the effect commits it and does nothing else. *)
Lemma initialSizesEffect_restored (g : Group) (key : string)
  (loaded : list float) :
  unsettled g ->
  truthy (autoSaveId props) = Some key ->
  loadPanelLayout (storage g) key (sortedPanels g) = Some loaded ->
  effect g = (Normal tt, committing loaded g).
Proof.
  intros Hlen Hkey Hload.
  apply Nat.eqb_neq in Hlen.
  unfold initialSizesEffect.
  unfold bind at 1. unfold gets at 1.
  unfold bind at 1. unfold gets at 1.
  rewrite Hlen, Hkey.
  unfold bind, gets. rewrite Hload. reflexivity.
Qed.

(** C1.  When no persisted layout is adopted (and the configuration passes
    the two sum checks), the effect commits one size per panel of the sorted
    array: a panel with an explicit default size receives exactly that value,
    a panel without one receives [(100 - totalDefault) / nullCount].  Three
    panels without defaults receive 100/3 each, which lies between 33.33 and
    33.34; of two panels, one with default 70, the other receives 30. *)
Theorem initial_sizes_from_defaults :
  (forall g : Group,
     unsettled g ->
     nothingRestored loadPanelLayout props (sortedPanels g) g ->
     gt (totalDefault (sortedPanels g)) 100 = false ->
     gt (totalMin (sortedPanels g)) 100 = false ->
     exists nextSizes : list float,
       effect g = (Normal tt, committing nextSizes g) /\
       List.length nextSizes = List.length (sortedPanels g) /\
       forall (i : nat) (p : PanelData),
         nth_error (sortedPanels g) i = Some p ->
         nth_error nextSizes i =
         Some match defaultSize p with
              | Some d => d
              | None =>
                  ((100 - totalDefault (sortedPanels g))
                   / nullCount (sortedPanels g))%float
              end)
  /\ (let third := (100 / 3)%float in
      contents (sizes (exec (sampleInitialSizes plainProps)
                         (mounted plainProps [] threePanels)))
      = [third; third; third]
      /\ PrimFloat.ltb 33.33 third = true /\ PrimFloat.ltb third 33.34 = true)
  /\ contents (sizes (exec (sampleInitialSizes plainProps)
                        (mounted plainProps [] seventyAndRest)))
     = [70; 30]%float.
Proof.
  split; [| split; [cbv zeta; repeat split |]; vm_compute; reflexivity].
  intros g Hlen Hnone Hdefault Hmin.
  exists (map (defaultShare (sortedPanels g)) (sortedPanels g)).
  split; [| split].
  - rewrite (initialSizesEffect_defaults g Hlen Hnone), Hdefault, Hmin.
    reflexivity.
  - apply length_map.
  - intros i p Hp. rewrite nth_error_map, Hp. reflexivity.
Qed.

(** C2.  In the computation from defaults, if the sum of the explicit default
    sizes exceeds 100 or the sum of the minimum sizes exceeds 100, the effect
    throws and leaves the group as it found it: [setSizes] has not been
    called, the log of calls and the sizes are those of before. *)
Theorem oversized_configuration_throws (g : Group) :
  unsettled g ->
  nothingRestored loadPanelLayout props (sortedPanels g) g ->
  gt (totalDefault (sortedPanels g)) 100 = true
  \/ gt (totalMin (sortedPanels g)) 100 = true ->
  (exists msg : string, effect g = (Thrown msg, g))
  /\ calls (exec effect g) = calls g
  /\ sizes (exec effect g) = sizes g.
Proof.
  intros Hlen Hnone Hover.
  assert (H : exists msg : string, effect g = (Thrown msg, g)).
  { rewrite (initialSizesEffect_defaults g Hlen Hnone).
    destruct (gt (totalDefault (sortedPanels g)) 100).
    - eexists; reflexivity.
    - destruct Hover as [Hover | Hover]; [discriminate |].
      rewrite Hover. eexists; reflexivity. }
  split; [exact H |].
  destruct H as [msg H]. unfold exec. rewrite H. split; reflexivity.
Qed.

(** C3, as amended.  The computation from defaults throws exactly when the
    sum of the explicit default sizes or the sum of the minimum sizes exceeds
    100; how a panel's minimum compares with its maximum plays no part. *)
Theorem configuration_error_only_for_sums (g : Group) :
  unsettled g ->
  nothingRestored loadPanelLayout props (sortedPanels g) g ->
  threw (completion effect g) = true <->
  gt (totalDefault (sortedPanels g)) 100 = true
  \/ gt (totalMin (sortedPanels g)) 100 = true.
Proof.
  intros Hlen Hnone. unfold completion.
  rewrite (initialSizesEffect_defaults g Hlen Hnone).
  destruct (gt (totalDefault (sortedPanels g)) 100);
    destruct (gt (totalMin (sortedPanels g)) 100); simpl;
    intuition discriminate.
Qed.

(** C6.  When [autoSaveId] is set and a saved layout loads for the current
    panels, the effect commits the loaded sizes and completes normally,
    whatever the default and minimum sizes add up to: the computation from
    defaults and its two checks are not run. *)
Theorem restored_layout_is_adopted (g : Group) (key : string)
  (loaded : list float) :
  unsettled g ->
  truthy (autoSaveId props) = Some key ->
  loadPanelLayout (storage g) key (sortedPanels g) = Some loaded ->
  effect g = (Normal tt, committing loaded g)
  /\ contents (sizes (exec effect g)) = loaded
  /\ calls (exec effect g)
     = (calls g ++ [CallSetSizes (mkObj (nextAddr g) loaded)])%list.
Proof.
  intros Hlen Hkey Hload.
  pose proof (initialSizesEffect_restored g key loaded Hlen Hkey Hload) as H.
  split; [exact H |]. unfold exec. rewrite H. split; reflexivity.
Qed.

End InitialSizes.

(** Two panels, one with default 70: the sizes committed are 70 and 30. *)
Lemma initial_sizes_from_defaults_witness :
  let g := mounted plainProps [] seventyAndRest in
  let panelsArray := registrationOrder (contents (panels g)) in
  List.length (contents (cv_sizes (committedValuesRef g)))
  <> JsMap.size (contents (panels g))
  /\ nothingRestored sampleLoad plainProps panelsArray g
  /\ gt (totalDefault panelsArray) 100 = false
  /\ gt (totalMin panelsArray) 100 = false
  /\ exists nextSizes : list float,
       sampleInitialSizes plainProps g
       = (Normal tt,
          logCall (CallSetSizes (mkObj (nextAddr g) nextSizes))
            (withSizes (mkObj (nextAddr g) nextSizes)
               (withNextAddr (S (nextAddr g)) g)))
       /\ List.length nextSizes = List.length panelsArray
       /\ forall (i : nat) (p : PanelData),
            nth_error panelsArray i = Some p ->
            nth_error nextSizes i =
            Some match defaultSize p with
                 | Some d => d
                 | None =>
                     ((100 - totalDefault panelsArray)
                      / nullCount panelsArray)%float
                 end.
Proof.
  cbv zeta.
  assert (Hlen :
    List.length (contents (cv_sizes (committedValuesRef
      (mounted plainProps [] seventyAndRest))))
    <> JsMap.size (contents (panels (mounted plainProps [] seventyAndRest)))).
  { vm_compute. discriminate. }
  assert (Hnone :
    nothingRestored sampleLoad plainProps
      (registrationOrder (contents (panels (mounted plainProps [] seventyAndRest))))
      (mounted plainProps [] seventyAndRest)).
  { exact I. }
  repeat (split; [first [exact Hlen | exact Hnone | reflexivity] |]).
  apply (proj1 (initial_sizes_from_defaults registrationOrder sampleLoad
                  plainProps)
           (mounted plainProps [] seventyAndRest) Hlen Hnone);
    reflexivity.
Defined.

(** Defaults of 60 and 50 on a two-panel group: the effect throws, nothing
    is committed. *)
Lemma oversized_configuration_throws_witness :
  let g := mounted plainProps [] sixtyAndFifty in
  gt (totalDefault (registrationOrder (contents (panels g)))) 100 = true
  /\ (exists msg : string, sampleInitialSizes plainProps g = (Thrown msg, g))
  /\ calls (exec (sampleInitialSizes plainProps) g) = calls g
  /\ sizes (exec (sampleInitialSizes plainProps) g) = sizes g.
Proof.
  cbv zeta. split; [reflexivity |].
  apply (oversized_configuration_throws registrationOrder sampleLoad plainProps
           (mounted plainProps [] sixtyAndFifty)).
  - vm_compute. discriminate.
  - exact I.
  - left. reflexivity.
Defined.

(** C3, as stated, fails: panel "a" is configured with a minimum of 60 above
    its maximum of 40, and the initial-size computation completes normally
    and commits 50 and 50. *)
Lemma min_above_max_is_not_rejected :
  let g := mounted plainProps [] minAboveMax in
  (exists p : PanelData,
     In p (registrationOrder (contents (panels g)))
     /\ gt (minSize p) (maxSize p) = true)
  /\ List.length (contents (cv_sizes (committedValuesRef g)))
     <> JsMap.size (contents (panels g))
  /\ completion (sampleInitialSizes plainProps) g = Normal tt
  /\ threw (completion (sampleInitialSizes plainProps) g) = false
  /\ contents (sizes (exec (sampleInitialSizes plainProps) g))
     = [50; 50]%float.
Proof.
  cbv zeta. split; [| split; [| split; [| split]]].
  - exists (panel "a" None 60 40). split; [left |]; reflexivity.
  - vm_compute. discriminate.
  - reflexivity.
  - reflexivity.
  - reflexivity.
Qed.

(** A minimum above the maximum, but neither sum exceeds 100: no error is
    raised. *)
Lemma configuration_error_only_for_sums_witness :
  let g := mounted plainProps [] minAboveMax in
  threw (completion (sampleInitialSizes plainProps) g) = true <->
  gt (totalDefault (registrationOrder (contents (panels g)))) 100 = true
  \/ gt (totalMin (registrationOrder (contents (panels g)))) 100 = true.
Proof.
  cbv zeta.
  apply (configuration_error_only_for_sums registrationOrder sampleLoad
           plainProps (mounted plainProps [] minAboveMax)).
  - vm_compute. discriminate.
  - exact I.
Defined.

(** Defaults of 60 and 50 would be rejected, but the store holds a layout
    for the group: 25 and 75 are committed and nothing is thrown. *)
Lemma restored_layout_is_adopted_witness :
  let g := mounted savingProps [("layout", "saved")] sixtyAndFifty in
  gt (totalDefault (registrationOrder (contents (panels g)))) 100 = true
  /\ sampleInitialSizes savingProps g
     = (Normal tt,
        logCall (CallSetSizes (mkObj (nextAddr g) [25; 75]%float))
          (withSizes (mkObj (nextAddr g) [25; 75]%float)
             (withNextAddr (S (nextAddr g)) g)))
  /\ contents (sizes (exec (sampleInitialSizes savingProps) g))
     = [25; 75]%float
  /\ calls (exec (sampleInitialSizes savingProps) g)
     = (calls g ++ [CallSetSizes (mkObj (nextAddr g) [25; 75]%float)])%list.
Proof.
  cbv zeta. split; [reflexivity |].
  apply (restored_layout_is_adopted registrationOrder sampleLoad savingProps
           (mounted savingProps [("layout", "saved")] sixtyAndFifty)
           "layout" [25; 75]%float).
  - vm_compute. discriminate.
  - reflexivity.
  - reflexivity.
Defined.

(** ** The resize handler *)

Section Resizing.

Variable ResizeEvent : Type.
Variable panelsMapToSortedArray : PanelDataMap -> list PanelData.
Variable getResizeHandlePanelIds :
  string -> string -> list PanelData -> option string * option string.
Variable getMovement :
  ResizeEvent -> string -> string -> Direction -> float -> float.
Variable getBoundingClientRect : string -> float * float.
Variable props : Props.

Local Abbreviation handler adjustByDelta :=
  (resizeHandler ResizeEvent panelsMapToSortedArray getResizeHandlePanelIds
     getMovement getBoundingClientRect adjustByDelta props).

(** The movement the handler computes (lines 200-206). *)
Local Abbreviation movementOf g handleId event :=
  (getMovement event (groupId props) handleId
     (cv_direction (committedValuesRef g)) (dragOffsetRef g)).

(** The delta the handler asks for (lines 211-215). *)
Local Abbreviation deltaOf g handleId event :=
  ((movementOf g handleId event
    / match cv_direction (committedValuesRef g) with
      | horizontal => fst (getBoundingClientRect (groupId props))
      | vertical => snd (getBoundingClientRect (groupId props))
      end) * 100)%float.

(** The panels on both sides of the handle (lines 189-195). *)
Local Abbreviation handlePanelIds g handleId :=
  (getResizeHandlePanelIds (groupId props) handleId
     (panelsMapToSortedArray (contents (cv_panels (committedValuesRef g))))).

(** Lines 224-226: when [adjustByDelta] hands back the committed array
    itself, the handler does not call [setSizes]. *)
Lemma resizeHandler_same_reference
  (adjustByDelta :
     Obj PanelDataMap -> string -> string -> float -> Obj (list float) ->
     M (Obj (list float)))
  (g g' : Group) (handleId : string) (event : ResizeEvent)
  (idBefore idAfter : string) (nextSizes : Obj (list float)) :
  handlePanelIds g handleId = (Some idBefore, Some idAfter) ->
  strictEq (movementOf g handleId event) 0 = false ->
  adjustByDelta (cv_panels (committedValuesRef g)) idBefore idAfter
    (deltaOf g handleId event) (cv_sizes (committedValuesRef g))
    (logCall CallPreventDefault g)
  = (Normal nextSizes, g') ->
  sameRef (cv_sizes (committedValuesRef g)) nextSizes = true ->
  handler adjustByDelta handleId event g = (Normal tt, g').
Proof.
  intros Hids Hmove Hadjust Hsame.
  unfold strictEq in Hmove.
  unfold resizeHandler, bind, modify, gets. cbn.
  rewrite Hids. cbn. rewrite Hmove, Hadjust, Hsame. reflexivity.
Qed.

(** Lines 207-209: a movement of zero ends the handler. *)
Lemma resizeHandler_no_movement
  (adjustByDelta :
     Obj PanelDataMap -> string -> string -> float -> Obj (list float) ->
     M (Obj (list float)))
  (g : Group) (handleId : string) (event : ResizeEvent) :
  strictEq (movementOf g handleId event) 0 = true ->
  handler adjustByDelta handleId event g
  = (Normal tt, logCall CallPreventDefault g).
Proof.
  intros Hmove.
  unfold strictEq in Hmove.
  unfold resizeHandler, bind, modify, gets. cbn.
  destruct (handlePanelIds g handleId) as [[idBefore |] [idAfter |]];
    try reflexivity.
  cbn. rewrite Hmove. reflexivity.
Qed.

Section ZeroDelta.

Variable resolveDelta :
  PanelDataMap -> string -> string -> float -> list float -> float.
Variable redistribute :
  PanelDataMap -> string -> string -> float -> list float -> list float.

(** C4.  If the effective delta resolves to exactly zero, [adjust] returns
    the very sequence it was given (the same object, nothing allocated), and
    the resize handler, finding the previous sizes returned, does not call
    [setSizes]: the sizes state and the committed sizes stay the objects they
    were. *)
Theorem zero_effective_delta_skips_commit (g : Group) (handleId : string)
  (event : ResizeEvent) (idBefore idAfter : string) :
  let prevPanels := cv_panels (committedValuesRef g) in
  let prevSizes := cv_sizes (committedValuesRef g) in
  let run := exec (handler (adjust resolveDelta redistribute) handleId event) g in
  handlePanelIds g handleId = (Some idBefore, Some idAfter) ->
  strictEq
    (resolveDelta (contents prevPanels) idBefore idAfter
       (deltaOf g handleId event) (contents prevSizes)) 0 = true ->
  (forall g0 : Group,
     adjust resolveDelta redistribute prevPanels idBefore idAfter
       (deltaOf g handleId event) prevSizes g0
     = (Normal prevSizes, g0))
  /\ handler (adjust resolveDelta redistribute) handleId event g
     = (Normal tt, logCall CallPreventDefault g)
  /\ sizes run = sizes g
  /\ calls run = (calls g ++ [CallPreventDefault])%list.
Proof.
  intros prevPanels prevSizes run Hids Hzero.
  assert (Hadjust : forall g0 : Group,
    adjust resolveDelta redistribute prevPanels idBefore idAfter
      (deltaOf g handleId event) prevSizes g0
    = (Normal prevSizes, g0)).
  { intro g0. unfold adjust. fold prevPanels prevSizes in Hzero.
    rewrite Hzero. reflexivity. }
  assert (Hrun :
    handler (adjust resolveDelta redistribute) handleId event g
    = (Normal tt, logCall CallPreventDefault g)).
  { destruct (strictEq (movementOf g handleId event) 0) eqn:Hmove.
    - apply resizeHandler_no_movement, Hmove.
    - apply (resizeHandler_same_reference (adjust resolveDelta redistribute)
               g (logCall CallPreventDefault g) handleId event idBefore
               idAfter prevSizes Hids Hmove (Hadjust _)).
      apply sameRef_refl. }
  split; [exact Hadjust |]. split; [exact Hrun |].
  subst run. unfold exec. rewrite Hrun. split; reflexivity.
Qed.

End ZeroDelta.

(** C5.  A resize event whose movement is 0 ends the handler before it
    reaches [adjustByDelta] and [setSizes]: whatever [adjustByDelta] is, the
    group is left as it was (only [event.preventDefault()] has been called),
    and its sizes are unchanged. *)
Theorem zero_movement_is_a_no_op
  (adjustByDelta :
     Obj PanelDataMap -> string -> string -> float -> Obj (list float) ->
     M (Obj (list float)))
  (g : Group) (handleId : string) (event : ResizeEvent) :
  let run := exec (handler adjustByDelta handleId event) g in
  strictEq (movementOf g handleId event) 0 = true ->
  handler adjustByDelta handleId event g
  = (Normal tt, logCall CallPreventDefault g)
  /\ sizes run = sizes g
  /\ committedValuesRef run = committedValuesRef g
  /\ nextAddr run = nextAddr g
  /\ calls run = (calls g ++ [CallPreventDefault])%list.
Proof.
  intros run Hmove. subst run. unfold exec.
  rewrite (resizeHandler_no_movement adjustByDelta g handleId event Hmove).
  repeat split.
Qed.

End Resizing.

(** Two halves, the second at its minimum of 50: a pointer 20 pixels past the
    handle asks for 10 percent, of which nothing can be given. *)
Lemma zero_effective_delta_skips_commit_witness :
  let g := settled plainProps [] halves in
  let event := mkPointer 120 0 in
  let prevSizes := cv_sizes (committedValuesRef g) in
  sampleHandleIds "group" "handle"
    (registrationOrder (contents (cv_panels (committedValuesRef g))))
  = (Some "a", Some "b")
  /\ strictEq (sampleMovement event "group" "handle" horizontal 0) 0 = false
  /\ (forall g0 : Group,
        adjust pairResolve pairRedistribute (cv_panels (committedValuesRef g))
          "a" "b" 10 prevSizes g0
        = (Normal prevSizes, g0))
  /\ sampleResize plainProps "handle" event g
     = (Normal tt, logCall CallPreventDefault g)
  /\ sizes (exec (sampleResize plainProps "handle" event) g) = sizes g
  /\ calls (exec (sampleResize plainProps "handle" event) g)
     = (calls g ++ [CallPreventDefault])%list.
Proof.
  cbv zeta. split; [reflexivity |]. split; [reflexivity |].
  apply (zero_effective_delta_skips_commit PointerEvent registrationOrder
           sampleHandleIds sampleMovement sampleRect plainProps pairResolve
           pairRedistribute (settled plainProps [] halves) "handle"
           (mkPointer 120 0) "a" "b"); reflexivity.
Defined.

(** The pointer is on the handle: no movement, nothing happens. *)
Lemma zero_movement_is_a_no_op_witness :
  let g := settled plainProps [] halves in
  let event := mkPointer 100 0 in
  let run := exec (sampleResize plainProps "handle" event) g in
  strictEq (sampleMovement event "group" "handle" horizontal (dragOffsetRef g)) 0
  = true
  /\ sampleResize plainProps "handle" event g
     = (Normal tt, logCall CallPreventDefault g)
  /\ sizes run = sizes g
  /\ committedValuesRef run = committedValuesRef g
  /\ nextAddr run = nextAddr g
  /\ calls run = (calls g ++ [CallPreventDefault])%list.
Proof.
  cbv zeta. split; [reflexivity |].
  apply (zero_movement_is_a_no_op PointerEvent registrationOrder
           sampleHandleIds sampleMovement sampleRect plainProps
           (adjust pairResolve pairRedistribute)
           (settled plainProps [] halves) "handle" (mkPointer 100 0)).
  reflexivity.
Defined.

(** ** Registration *)

(** C7.  Registering an id the panels map already holds changes nothing: the
    updater hands the previous map back, the panels state is the same object
    as before, and the initial-size effect, which depends on that object, has
    no reason to run again. *)
Theorem register_existing_is_a_no_op (g : Group) (panelId : string)
  (p : PanelData) :
  JsMap.has (contents (panels g)) panelId = true ->
  registerPanel panelId p g
  = (Normal tt, logCall (CallSetPanels (panels g)) g)
  /\ panels (exec (registerPanel panelId p) g) = panels g
  /\ sizes (exec (registerPanel panelId p) g) = sizes g
  /\ nextAddr (exec (registerPanel panelId p) g) = nextAddr g
  /\ panelsDepChanged g (exec (registerPanel panelId p) g) = false.
Proof.
  intro Hhas.
  assert (Hrun : registerPanel panelId p g
                 = (Normal tt, logCall (CallSetPanels (panels g)) g)).
  { unfold registerPanel, setPanels, bind, gets, modify, ret. cbn.
    rewrite Hhas. rewrite withPanels_same. reflexivity. }
  split; [exact Hrun |]. unfold exec, panelsDepChanged. rewrite Hrun. cbn.
  rewrite sameRef_refl. repeat split.
Qed.

Lemma register_existing_is_a_no_op_witness :
  let g := settled plainProps [] halves in
  let p := panel "a" (Some 90%float) 0 100 in
  JsMap.has (contents (panels g)) "a" = true
  /\ registerPanel "a" p g = (Normal tt, logCall (CallSetPanels (panels g)) g)
  /\ panels (exec (registerPanel "a" p) g) = panels g
  /\ sizes (exec (registerPanel "a" p) g) = sizes g
  /\ nextAddr (exec (registerPanel "a" p) g) = nextAddr g
  /\ panelsDepChanged g (exec (registerPanel "a" p) g) = false.
Proof.
  cbv zeta. split; [reflexivity |].
  apply (register_existing_is_a_no_op (settled plainProps [] halves) "a"
           (panel "a" (Some 90%float) 0 100)).
  reflexivity.
Defined.

(** C8, as stated, fails: unregistering "b" from three settled panels takes
    "b" out of the panels map, and the sizes sequence still has its three
    entries; the next pass of the initial-size effect then replaces all of
    them by 50 and 50 instead of keeping the two thirds that remain. *)
Lemma unregister_keeps_every_size :
  let g := settled plainProps [] threePanels in
  let g' := exec (unregisterPanel "b") g in
  let third := (100 / 3)%float in
  JsMap.has (contents (panels g)) "b" = true
  /\ contents (sizes g) = [third; third; third]
  /\ JsMap.has (contents (panels g')) "b" = false
  /\ JsMap.size (contents (panels g')) = 2
  /\ contents (sizes g') = [third; third; third]
  /\ contents (sizes g') <> [third; third]
  /\ contents (sizes (exec (commitValues plainProps ;;
                            sampleInitialSizes plainProps) g'))
     = [50; 50]%float.
Proof.
  cbv zeta. repeat split; try reflexivity.
  vm_compute. discriminate.
Qed.

(** C8, as amended.  Unregistering an id the group holds commits a new
    panels map without that panel, one entry smaller, and leaves the sizes
    sequence as it was. *)
Theorem unregister_removes_the_panel_only (g : Group) (panelId : string) :
  let nextPanels :=
    mkObj (nextAddr g) (JsMap.delete (contents (panels g)) panelId) in
  let run := exec (unregisterPanel panelId) g in
  JsMap.has (contents (panels g)) panelId = true ->
  unregisterPanel panelId g
  = (Normal tt,
     logCall (CallSetPanels nextPanels)
       (withPanels nextPanels (withNextAddr (S (nextAddr g)) g)))
  /\ contents (panels run) = JsMap.delete (contents (panels g)) panelId
  /\ S (JsMap.size (contents (panels run))) = JsMap.size (contents (panels g))
  /\ sizes run = sizes g
  /\ committedValuesRef run = committedValuesRef g.
Proof.
  intros nextPanels run Hhas.
  assert (Hrun : unregisterPanel panelId g
                 = (Normal tt,
                    logCall (CallSetPanels nextPanels)
                      (withPanels nextPanels
                         (withNextAddr (S (nextAddr g)) g)))).
  { unfold unregisterPanel, setPanels, bind, gets, modify, ret, alloc. cbn.
    rewrite Hhas. reflexivity. }
  split; [exact Hrun |]. subst run. unfold exec. rewrite Hrun. cbn.
  repeat split. apply delete_shrinks, Hhas.
Qed.

Lemma unregister_removes_the_panel_only_witness :
  let g := settled plainProps [] threePanels in
  let run := exec (unregisterPanel "b") g in
  JsMap.has (contents (panels g)) "b" = true
  /\ contents (panels run) = JsMap.delete (contents (panels g)) "b"
  /\ S (JsMap.size (contents (panels run))) = JsMap.size (contents (panels g))
  /\ sizes run = sizes g
  /\ committedValuesRef run = committedValuesRef g.
Proof.
  cbv zeta. split; [reflexivity |].
  apply (unregister_removes_the_panel_only
           (settled plainProps [] threePanels) "b").
  reflexivity.
Defined.

(** ** The drag session *)

Section Dragging.

Variable ResizeEvent : Type.
Variable getDragOffset : ResizeEvent -> string -> Direction -> float.
Variable props : Props.

(** C9, as amended.  In every group state, also one in which another handle
    is dragging, a drag-start on a handle makes that handle the active one
    and captures its drag offset from the event; no error is raised. *)
Theorem drag_start_takes_over (g : Group) (handleId : string)
  (event : ResizeEvent) :
  let run := exec (startDragging ResizeEvent getDragOffset props handleId event) g in
  startDragging ResizeEvent getDragOffset props handleId event g
  = (Normal tt,
     withDragOffsetRef (getDragOffset event handleId (direction props))
       (logCall (CallSetActiveHandleId (Some handleId))
          (withActiveHandleId (Some handleId) g)))
  /\ activeHandleId run = Some handleId
  /\ dragOffsetRef run = getDragOffset event handleId (direction props).
Proof.
  cbv zeta. unfold exec. repeat split.
Qed.

End Dragging.

(** C9, as stated, fails: while "h1" is dragging with an offset of 10, a
    drag-start on "h2" completes normally and leaves "h2" the active handle
    with an offset of -10. *)
Lemma second_drag_start_is_not_ignored :
  let start := startDragging PointerEvent sampleDragOffset plainProps in
  let g := exec (start "h1" (mkPointer 110 0)) (settled plainProps [] halves) in
  let g' := exec (start "h2" (mkPointer 90 0)) g in
  activeHandleId g = Some "h1"
  /\ dragOffsetRef g = 10%float
  /\ completion (start "h2" (mkPointer 90 0)) g = Normal tt
  /\ activeHandleId g' = Some "h2"
  /\ dragOffsetRef g' = (-10)%float
  /\ activeHandleId g' <> activeHandleId g
  /\ PrimFloat.eqb (dragOffsetRef g') (dragOffsetRef g) = false.
Proof.
  cbv zeta. repeat split; try reflexivity.
  vm_compute. discriminate.
Qed.

(** ** The persistence effect *)

Section Saving.

Variable panelsMapToSortedArray : PanelDataMap -> list PanelData.
Variable savePanelGroupLayout :
  string -> list PanelData -> list float -> Storage -> Storage.
Variable props : Props.

Local Abbreviation save :=
  (saveEffect panelsMapToSortedArray savePanelGroupLayout props).

(** With [autoSaveId] set and as many sizes as panels, at least one, the
    layout is handed to [savePanelGroupLayout]. *)
Lemma saveEffect_settled (g : Group) (key : string) :
  truthy (autoSaveId props) = Some key ->
  contents (sizes g) <> [] ->
  List.length (contents (sizes g)) = JsMap.size (contents (panels g)) ->
  calls (exec save g)
  = (calls g
     ++ [CallSavePanelGroupLayout key
           (panelsMapToSortedArray (contents (panels g)))
           (contents (sizes g))])%list.
Proof.
  intros Hkey Hnonempty Hlen.
  unfold exec, saveEffect. rewrite Hkey.
  unfold bind, gets, modify. cbn.
  rewrite Hlen, Nat.eqb_refl.
  destruct (contents (sizes g)) as [| s rest]; [contradiction |].
  simpl in Hlen. rewrite <- Hlen. reflexivity.
Qed.

(** C10.  The save step does nothing unless [autoSaveId] is set and the
    layout is settled: when [autoSaveId] is missing or empty, or [sizes] is
    empty, or its length differs from the number of panels, the effect
    returns with the store untouched and no call to [savePanelGroupLayout]. *)
Theorem save_only_when_settled (g : Group) :
  truthy (autoSaveId props) = None
  \/ contents (sizes g) = []
  \/ List.length (contents (sizes g)) <> JsMap.size (contents (panels g)) ->
  save g = (Normal tt, g)
  /\ storage (exec save g) = storage g
  /\ calls (exec save g) = calls g.
Proof.
  intro Hskip.
  assert (Hrun : save g = (Normal tt, g)).
  { unfold saveEffect.
    destruct (truthy (autoSaveId props)) as [key |]; [| reflexivity].
    unfold bind, gets. cbn.
    destruct Hskip as [Hkey | [Hempty | Hlen]].
    - discriminate.
    - rewrite Hempty. reflexivity.
    - apply Nat.eqb_neq in Hlen. rewrite Hlen, orb_true_r. reflexivity. }
  split; [exact Hrun |]. unfold exec. rewrite Hrun. split; reflexivity.
Qed.

End Saving.

(** Right after the panels have registered the sizes are still empty: the
    save step, though configured, writes nothing. *)
Lemma save_only_when_settled_witness :
  let g := mounted savingProps [] halves in
  let save := saveEffect registrationOrder sampleSave savingProps in
  truthy (autoSaveId savingProps) = Some "layout"
  /\ contents (sizes g) = []
  /\ save g = (Normal tt, g)
  /\ storage (exec save g) = storage g
  /\ calls (exec save g) = calls g.
Proof.
  cbv zeta. split; [reflexivity |]. split; [reflexivity |].
  apply (save_only_when_settled registrationOrder sampleSave savingProps
           (mounted savingProps [] halves)).
  right. left. reflexivity.
Defined.

(** * Further properties of the component *)

(** ** Maps *)

Lemma has_false_not_in {V : Type} (m : JsMap.t V) (k : string) :
  JsMap.has m k = false <-> ~ In k (map fst m).
Proof.
  induction m as [| [k' v'] rest IH]; simpl.
  - split; [intros _ [] | reflexivity].
  - destruct (String.eqb k' k) eqn:E.
    + apply String.eqb_eq in E. split; [discriminate |].
      intro H. exfalso. apply H. left. exact E.
    + apply String.eqb_neq in E. rewrite IH. split.
      * intros H [H' | H']; [exact (E H') | exact (H H')].
      * intros H H'. apply H. right. exact H'.
Qed.

Lemma set_new {V : Type} (m : JsMap.t V) (k : string) (v : V) :
  JsMap.has m k = false -> JsMap.set m k v = (m ++ [(k, v)])%list.
Proof.
  induction m as [| [k' v'] rest IH]; simpl; intro H.
  - reflexivity.
  - destruct (String.eqb k' k); [discriminate |]. rewrite (IH H). reflexivity.
Qed.

Lemma has_app_new {V : Type} (m : JsMap.t V) (k : string) (v : V) :
  JsMap.has (m ++ [(k, v)])%list k = true.
Proof.
  induction m as [| [k' v'] rest IH]; simpl.
  - rewrite String.eqb_refl. reflexivity.
  - destruct (String.eqb k' k); [reflexivity | exact IH].
Qed.

Lemma delete_app_new {V : Type} (m : JsMap.t V) (k : string) (v : V) :
  JsMap.has m k = false -> JsMap.delete (m ++ [(k, v)])%list k = m.
Proof.
  induction m as [| [k' v'] rest IH]; simpl; intro H.
  - rewrite String.eqb_refl. reflexivity.
  - destruct (String.eqb k' k); [discriminate |]. rewrite (IH H). reflexivity.
Qed.

Lemma has_delete_other {V : Type} (m : JsMap.t V) (k k' : string) :
  k' <> k -> JsMap.has (JsMap.delete m k) k' = JsMap.has m k'.
Proof.
  intro Hneq. induction m as [| [k0 v0] rest IH]; simpl.
  - reflexivity.
  - destruct (String.eqb k0 k) eqn:E; simpl.
    + apply String.eqb_eq in E. subst k0.
      apply String.eqb_neq in Hneq. rewrite String.eqb_sym, Hneq.
      reflexivity.
    + rewrite IH. reflexivity.
Qed.

Lemma keys_delete_incl {V : Type} (m : JsMap.t V) (k x : string) :
  In x (map fst (JsMap.delete m k)) -> In x (map fst m).
Proof.
  induction m as [| [k0 v0] rest IH]; simpl.
  - intros [].
  - destruct (String.eqb k0 k); simpl.
    + intro H. right. exact H.
    + intros [H | H]; [left; exact H | right; exact (IH H)].
Qed.

Lemma delete_unique {V : Type} (m : JsMap.t V) (k : string) :
  NoDup (map fst m) ->
  NoDup (map fst (JsMap.delete m k)) /\ JsMap.has (JsMap.delete m k) k = false.
Proof.
  induction m as [| [k0 v0] rest IH]; simpl; intro Hnodup.
  - split; [constructor | reflexivity].
  - inversion Hnodup as [| x xs Hnotin Hrest]; subst.
    destruct (String.eqb k0 k) eqn:E; simpl.
    + apply String.eqb_eq in E. subst k0.
      split; [exact Hrest |]. apply has_false_not_in, Hnotin.
    + destruct (IH Hrest) as [IHnodup IHhas]. rewrite E. split.
      * constructor; [| exact IHnodup].
        intro H. apply Hnotin. exact (keys_delete_incl rest k k0 H).
      * exact IHhas.
Qed.

Lemma app_new_unique {V : Type} (m : JsMap.t V) (k : string) (v : V) :
  NoDup (map fst m) -> JsMap.has m k = false ->
  NoDup (map fst (m ++ [(k, v)])%list).
Proof.
  intros Hnodup Hhas. rewrite map_app. simpl.
  apply NoDup_app; [exact Hnodup | constructor; [intros [] | constructor] |].
  intros x Hx [Hk | []]. subst x.
  apply has_false_not_in in Hhas. exact (Hhas Hx).
Qed.

(** ** Registering and unregistering panels *)

Lemma registerPanel_existing (g : Group) (panelId : string) (p : PanelData) :
  JsMap.has (contents (panels g)) panelId = true ->
  registerPanel panelId p g = (Normal tt, logCall (CallSetPanels (panels g)) g).
Proof.
  intro Hhas.
  unfold registerPanel, setPanels, bind, gets, modify, ret. cbn.
  rewrite Hhas. cbn. rewrite withPanels_same. reflexivity.
Qed.

Lemma registerPanel_new (g : Group) (panelId : string) (p : PanelData) :
  JsMap.has (contents (panels g)) panelId = false ->
  registerPanel panelId p g
  = (Normal tt,
     logCall
       (CallSetPanels
          (mkObj (nextAddr g) (contents (panels g) ++ [(panelId, p)])%list))
       (withPanels
          (mkObj (nextAddr g) (contents (panels g) ++ [(panelId, p)])%list)
          (withNextAddr (S (nextAddr g)) g))).
Proof.
  intro Hhas.
  unfold registerPanel, setPanels, bind, gets, modify, ret, alloc. cbn.
  rewrite Hhas. rewrite (set_new _ _ p Hhas). reflexivity.
Qed.

Lemma unregisterPanel_absent (g : Group) (panelId : string) :
  JsMap.has (contents (panels g)) panelId = false ->
  unregisterPanel panelId g = (Normal tt, logCall (CallSetPanels (panels g)) g).
Proof.
  intro Hhas.
  unfold unregisterPanel, setPanels, bind, gets, modify, ret. cbn.
  rewrite Hhas. cbn. rewrite withPanels_same. reflexivity.
Qed.

Lemma unregisterPanel_present (g : Group) (panelId : string) :
  JsMap.has (contents (panels g)) panelId = true ->
  unregisterPanel panelId g
  = (Normal tt,
     logCall
       (CallSetPanels
          (mkObj (nextAddr g) (JsMap.delete (contents (panels g)) panelId)))
       (withPanels
          (mkObj (nextAddr g) (JsMap.delete (contents (panels g)) panelId))
          (withNextAddr (S (nextAddr g)) g))).
Proof.
  intro Hhas.
  unfold unregisterPanel, setPanels, bind, gets, modify, ret, alloc. cbn.
  rewrite Hhas. reflexivity.
Qed.

(** X1.  Unregistering an id the group does not hold changes nothing: the
    updater hands the previous map back, so the panels state is the same
    object, no address is used, and the initial-size effect has no reason to
    run again. *)
Theorem unregister_absent_is_a_no_op (g : Group) (panelId : string) :
  let run := exec (unregisterPanel panelId) g in
  JsMap.has (contents (panels g)) panelId = false ->
  unregisterPanel panelId g = (Normal tt, logCall (CallSetPanels (panels g)) g)
  /\ panels run = panels g
  /\ sizes run = sizes g
  /\ nextAddr run = nextAddr g
  /\ panelsDepChanged g run = false.
Proof.
  intros run Hhas. subst run. unfold exec, panelsDepChanged.
  rewrite (unregisterPanel_absent g panelId Hhas). cbn.
  rewrite sameRef_refl. repeat split.
Qed.

Lemma unregister_absent_is_a_no_op_witness :
  let g := settled plainProps [] halves in
  let run := exec (unregisterPanel "c") g in
  JsMap.has (contents (panels g)) "c" = false
  /\ unregisterPanel "c" g = (Normal tt, logCall (CallSetPanels (panels g)) g)
  /\ panels run = panels g
  /\ sizes run = sizes g
  /\ nextAddr run = nextAddr g
  /\ panelsDepChanged g run = false.
Proof.
  cbv zeta. split; [reflexivity |].
  apply (unregister_absent_is_a_no_op (settled plainProps [] halves) "c").
  reflexivity.
Defined.

(** X2.  Registering an id the group does not hold yet commits a new map
    object in which the panel comes last, after all the panels that were
    there, in their order; the map is one entry larger, holds the id, and
    the sizes are not touched. *)
Theorem register_new_appends (g : Group) (panelId : string) (p : PanelData) :
  let run := exec (registerPanel panelId p) g in
  JsMap.has (contents (panels g)) panelId = false ->
  completion (registerPanel panelId p) g = Normal tt
  /\ contents (panels run) = (contents (panels g) ++ [(panelId, p)])%list
  /\ JsMap.values (contents (panels run))
     = (JsMap.values (contents (panels g)) ++ [p])%list
  /\ JsMap.has (contents (panels run)) panelId = true
  /\ JsMap.size (contents (panels run)) = S (JsMap.size (contents (panels g)))
  /\ addrOf (panels run) = nextAddr g
  /\ sizes run = sizes g
  /\ committedValuesRef run = committedValuesRef g.
Proof.
  intros run Hhas. subst run. unfold exec, completion.
  rewrite (registerPanel_new g panelId p Hhas). cbn.
  repeat split.
  - unfold JsMap.values. rewrite map_app. reflexivity.
  - apply has_app_new.
  - unfold JsMap.size. rewrite length_app. simpl. lia.
Qed.

Lemma register_new_appends_witness :
  let g := settled plainProps [] halves in
  let run := exec (registerPanel "late" lateComer) g in
  JsMap.has (contents (panels g)) "late" = false
  /\ completion (registerPanel "late" lateComer) g = Normal tt
  /\ contents (panels run) = (contents (panels g) ++ [("late", lateComer)])%list
  /\ JsMap.values (contents (panels run))
     = (JsMap.values (contents (panels g)) ++ [lateComer])%list
  /\ JsMap.has (contents (panels run)) "late" = true
  /\ JsMap.size (contents (panels run)) = S (JsMap.size (contents (panels g)))
  /\ addrOf (panels run) = nextAddr g
  /\ sizes run = sizes g
  /\ committedValuesRef run = committedValuesRef g.
Proof.
  cbv zeta. split; [reflexivity |].
  apply (register_new_appends (settled plainProps [] halves) "late" lateComer).
  reflexivity.
Defined.

(** X3.  Registering a new id and unregistering it again gives back the
    panels that were there, in their order, in a map object of its own (two
    maps have been allocated); the sizes are not touched. *)
Theorem register_then_unregister (g : Group) (panelId : string)
  (p : PanelData) :
  let run := exec (registerPanel panelId p ;; unregisterPanel panelId) g in
  JsMap.has (contents (panels g)) panelId = false ->
  completion (registerPanel panelId p ;; unregisterPanel panelId) g = Normal tt
  /\ contents (panels run) = contents (panels g)
  /\ addrOf (panels run) = S (nextAddr g)
  /\ nextAddr run = S (S (nextAddr g))
  /\ sizes run = sizes g.
Proof.
  intros run Hhas. subst run. unfold exec, completion, bind.
  rewrite (registerPanel_new g panelId p Hhas).
  rewrite unregisterPanel_present by (cbn; apply has_app_new).
  cbn. repeat split. apply delete_app_new, Hhas.
Qed.

Lemma register_then_unregister_witness :
  let g := settled plainProps [] halves in
  let run := exec (registerPanel "late" lateComer ;; unregisterPanel "late") g in
  JsMap.has (contents (panels g)) "late" = false
  /\ completion (registerPanel "late" lateComer ;; unregisterPanel "late") g
     = Normal tt
  /\ contents (panels run) = contents (panels g)
  /\ addrOf (panels run) = S (nextAddr g)
  /\ nextAddr run = S (S (nextAddr g))
  /\ sizes run = sizes g.
Proof.
  cbv zeta. split; [reflexivity |].
  apply (register_then_unregister (settled plainProps [] halves) "late"
           lateComer).
  reflexivity.
Defined.

(** X4.  Registration and unregistration keep the ids of the panels map
    pairwise different. *)
Theorem registration_keeps_ids_unique (g : Group) (panelId : string)
  (p : PanelData) :
  uniqueIds (contents (panels g)) ->
  uniqueIds (contents (panels (exec (registerPanel panelId p) g)))
  /\ uniqueIds (contents (panels (exec (unregisterPanel panelId) g))).
Proof.
  intro Hunique. unfold exec, uniqueIds in *.
  destruct (JsMap.has (contents (panels g)) panelId) eqn:Hhas.
  - rewrite (registerPanel_existing g panelId p Hhas),
      (unregisterPanel_present g panelId Hhas). cbn.
    split; [exact Hunique |]. apply delete_unique, Hunique.
  - rewrite (registerPanel_new g panelId p Hhas),
      (unregisterPanel_absent g panelId Hhas). cbn.
    split; [| exact Hunique]. apply app_new_unique; assumption.
Qed.

Lemma registration_keeps_ids_unique_witness :
  let g := settled plainProps [] halves in
  uniqueIds (contents (panels (exec (registerPanel "late" lateComer) g)))
  /\ uniqueIds (contents (panels (exec (unregisterPanel "late") g))).
Proof.
  cbv zeta.
  apply (registration_keeps_ids_unique (settled plainProps [] halves) "late"
           lateComer).
  unfold uniqueIds. cbn.
  repeat constructor; simpl; intuition discriminate.
Defined.

(** X5.  With pairwise different ids, unregistering an id leaves a map that
    does not hold it, and holds every other id exactly if it did before. *)
Theorem unregister_removes_exactly_that_id (g : Group) (panelId : string) :
  let run := exec (unregisterPanel panelId) g in
  uniqueIds (contents (panels g)) ->
  JsMap.has (contents (panels run)) panelId = false
  /\ forall other : string,
       other <> panelId ->
       JsMap.has (contents (panels run)) other
       = JsMap.has (contents (panels g)) other.
Proof.
  intros run Hunique. subst run. unfold exec, uniqueIds in *.
  destruct (JsMap.has (contents (panels g)) panelId) eqn:Hhas.
  - rewrite (unregisterPanel_present g panelId Hhas). cbn. split.
    + apply delete_unique, Hunique.
    + intros other Hother. apply has_delete_other, Hother.
  - rewrite (unregisterPanel_absent g panelId Hhas). cbn. split.
    + exact Hhas.
    + reflexivity.
Qed.

Lemma unregister_removes_exactly_that_id_witness :
  let g := settled plainProps [] threePanels in
  let run := exec (unregisterPanel "b") g in
  JsMap.has (contents (panels run)) "b" = false
  /\ forall other : string,
       other <> "b" ->
       JsMap.has (contents (panels run)) other
       = JsMap.has (contents (panels g)) other.
Proof.
  cbv zeta.
  apply (unregister_removes_exactly_that_id
           (settled plainProps [] threePanels) "b").
  unfold uniqueIds. cbn.
  repeat constructor; simpl; intuition discriminate.
Defined.

(** ** Sizing passes *)

Section SizingPasses.

Variable panelsMapToSortedArray : PanelDataMap -> list PanelData.
Variable loadPanelLayout :
  Storage -> string -> list PanelData -> option (list float).
Variable savePanelGroupLayout :
  string -> list PanelData -> list float -> Storage -> Storage.
Variable props : Props.

Local Abbreviation effect :=
  (initialSizesEffect panelsMapToSortedArray loadPanelLayout props).
Local Abbreviation save :=
  (saveEffect panelsMapToSortedArray savePanelGroupLayout props).
Local Abbreviation commit := (commitValues props).
Local Abbreviation sortedPanels g := (panelsMapToSortedArray (contents (panels g))).
Local Abbreviation sorted m := (panelsMapToSortedArray m).
Local Abbreviation unsettled g :=
  (List.length (contents (cv_sizes (committedValuesRef g)))
   <> JsMap.size (contents (panels g))).
Local Abbreviation committing l g :=
  (logCall (CallSetSizes (mkObj (nextAddr g) l))
     (withSizes (mkObj (nextAddr g) l) (withNextAddr (S (nextAddr g)) g))).
Local Abbreviation committed g :=
  (withCommittedValuesRef (mkCommitted (direction props) (panels g) (sizes g)) g).

(** Line 89: as many committed sizes as panels, and the effect returns. *)
Lemma initialSizesEffect_settled (g : Group) :
  List.length (contents (cv_sizes (committedValuesRef g)))
  = JsMap.size (contents (panels g)) ->
  effect g = (Normal tt, g).
Proof.
  intro Hlen. apply Nat.eqb_eq in Hlen.
  unfold initialSizesEffect.
  unfold bind at 1. unfold gets at 1.
  unfold bind at 1. unfold gets at 1.
  rewrite Hlen. reflexivity.
Qed.

(** A render commits the values, then the effect sizes the panels from
    their defaults. *)
Lemma commit_then_effect_defaults (g : Group) :
  List.length (contents (sizes g)) <> JsMap.size (contents (panels g)) ->
  nothingRestored loadPanelLayout props (sortedPanels g) g ->
  gt (totalDefault (sortedPanels g)) 100 = false ->
  gt (totalMin (sortedPanels g)) 100 = false ->
  (commit ;; effect) g
  = (Normal tt,
     committing (map (defaultShare (sortedPanels g)) (sortedPanels g))
       (committed g)).
Proof.
  intros Hlen Hnone Hdefault Hmin.
  unfold bind at 1. unfold commitValues, modify. cbv beta iota.
  rewrite (initialSizesEffect_defaults panelsMapToSortedArray loadPanelLayout
             props (committed g) Hlen Hnone).
  cbn [panels withCommittedValuesRef]. rewrite Hdefault, Hmin. reflexivity.
Qed.

(** X6.  When the computation from defaults finds a sum over 100, the error
    names the default sizes if their sum is over 100, whatever the minimum
    sizes add up to, and the minimum sizes otherwise. *)
Theorem default_size_error_comes_first (g : Group) :
  unsettled g ->
  nothingRestored loadPanelLayout props (sortedPanels g) g ->
  gt (totalDefault (sortedPanels g)) 100 = true
  \/ gt (totalMin (sortedPanels g)) 100 = true ->
  effect g
  = (Thrown (if gt (totalDefault (sortedPanels g)) 100
             then defaultSizeMessage else minSizeMessage),
     g).
Proof.
  intros Hlen Hnone Hover.
  rewrite (initialSizesEffect_defaults panelsMapToSortedArray loadPanelLayout
             props g Hlen Hnone).
  destruct (gt (totalDefault (sortedPanels g)) 100); [reflexivity |].
  destruct Hover as [Hover | Hover]; [discriminate |].
  rewrite Hover. reflexivity.
Qed.

(** X7.  When every panel has an explicit default size, the sizes committed
    are these defaults, one by one: they are not rescaled to add up to
    100. *)
Theorem explicit_defaults_are_kept (g : Group) :
  unsettled g ->
  nothingRestored loadPanelLayout props (sortedPanels g) g ->
  gt (totalDefault (sortedPanels g)) 100 = false ->
  gt (totalMin (sortedPanels g)) 100 = false ->
  (forall p : PanelData, In p (sortedPanels g) -> defaultSize p <> None) ->
  completion effect g = Normal tt
  /\ map Some (contents (sizes (exec effect g)))
     = map defaultSize (sortedPanels g).
Proof.
  intros Hlen Hnone Hdefault Hmin Hall. unfold completion, exec.
  rewrite (initialSizesEffect_defaults panelsMapToSortedArray loadPanelLayout
             props g Hlen Hnone), Hdefault, Hmin.
  cbn. split; [reflexivity |].
  rewrite map_map. apply map_ext_in. intros p Hp.
  unfold defaultShare. specialize (Hall p Hp).
  destruct (defaultSize p); [reflexivity | contradiction].
Qed.

(** X8.  Once the effect has sized the panels from their defaults and the
    next render has committed the values, the effect finds as many sizes as
    panels and does nothing: the sizing pass is idempotent. *)
Theorem sizing_pass_is_idempotent (g : Group) :
  let g1 := exec (effect ;; commit) g in
  unsettled g ->
  nothingRestored loadPanelLayout props (sortedPanels g) g ->
  gt (totalDefault (sortedPanels g)) 100 = false ->
  gt (totalMin (sortedPanels g)) 100 = false ->
  List.length (sortedPanels g) = JsMap.size (contents (panels g)) ->
  List.length (contents (sizes g1)) = JsMap.size (contents (panels g1))
  /\ effect g1 = (Normal tt, g1).
Proof.
  intros g1 Hlen Hnone Hdefault Hmin Hsorted.
  assert (Hsettled :
    List.length (contents (cv_sizes (committedValuesRef g1)))
    = JsMap.size (contents (panels g1))
    /\ List.length (contents (sizes g1)) = JsMap.size (contents (panels g1))).
  { assert (Hrun :
      (effect ;; commit) g
      = (Normal tt,
         committed
           (committing (map (defaultShare (sortedPanels g)) (sortedPanels g))
              g))).
    { unfold bind.
      rewrite (initialSizesEffect_defaults panelsMapToSortedArray
                 loadPanelLayout props g Hlen Hnone), Hdefault, Hmin.
      reflexivity. }
    subst g1. unfold exec. rewrite Hrun.
    cbn. rewrite length_map. split; exact Hsorted. }
  split; [apply Hsettled |].
  apply initialSizesEffect_settled, Hsettled.
Qed.

(** X9.  A panel that registers after the sizes have settled makes the next
    pass compute every size anew from the defaults: whatever the sizes were,
    they are replaced by the default shares over the enlarged panel set. *)
Theorem late_registration_resets_sizes (g : Group) (panelId : string)
  (p : PanelData) :
  let all := sorted (contents (panels g) ++ [(panelId, p)])%list in
  let pass := registerPanel panelId p ;; commit ;; effect in
  JsMap.has (contents (panels g)) panelId = false ->
  List.length (contents (sizes g)) = JsMap.size (contents (panels g)) ->
  nothingRestored loadPanelLayout props all g ->
  gt (totalDefault all) 100 = false ->
  gt (totalMin all) 100 = false ->
  completion pass g = Normal tt
  /\ contents (sizes (exec pass g)) = map (defaultShare all) all.
Proof.
  intros all pass Hhas Hlen Hnone Hdefault Hmin.
  subst pass. unfold completion, exec. unfold bind at 1. unfold bind at 2.
  rewrite (registerPanel_new g panelId p Hhas). cbv beta iota.
  rewrite commit_then_effect_defaults.
  - split; reflexivity.
  - cbn. unfold JsMap.size in *. rewrite length_app. simpl. lia.
  - exact Hnone.
  - exact Hdefault.
  - exact Hmin.
Qed.


(** Lines 149-150: a settled layout goes to [savePanelGroupLayout]. *)
Lemma saveEffect_runs (g : Group) (key : string) :
  truthy (autoSaveId props) = Some key ->
  contents (sizes g) <> [] ->
  List.length (contents (sizes g)) = JsMap.size (contents (panels g)) ->
  save g
  = (Normal tt,
     logCall
       (CallSavePanelGroupLayout key (sortedPanels g) (contents (sizes g)))
       (withStorage
          (savePanelGroupLayout key (sortedPanels g) (contents (sizes g))
             (storage g))
          g)).
Proof.
  intros Hkey Hnonempty Hlen.
  unfold saveEffect. rewrite Hkey.
  unfold bind, gets, modify. cbn.
  rewrite Hlen, Nat.eqb_refl.
  destruct (contents (sizes g)) as [| s rest]; [contradiction |].
  simpl in Hlen. rewrite <- Hlen. reflexivity.
Qed.

(** X11.  With [autoSaveId] set and as many sizes as panels, at least one,
    the save step hands the sorted panels and the current sizes to
    [savePanelGroupLayout] under that key, once; the store is what the
    helper returns, and panels and sizes are left as they were. *)
Theorem settled_layout_is_saved (g : Group) (key : string) :
  let run := exec save g in
  let saved :=
    CallSavePanelGroupLayout key (sortedPanels g) (contents (sizes g)) in
  truthy (autoSaveId props) = Some key ->
  contents (sizes g) <> [] ->
  List.length (contents (sizes g)) = JsMap.size (contents (panels g)) ->
  completion save g = Normal tt
  /\ calls run = (calls g ++ [saved])%list
  /\ storage run
     = savePanelGroupLayout key (sortedPanels g) (contents (sizes g))
         (storage g)
  /\ sizes run = sizes g
  /\ panels run = panels g.
Proof.
  intros run saved Hkey Hnonempty Hlen. subst run saved.
  unfold completion, exec.
  rewrite (saveEffect_runs g key Hkey Hnonempty Hlen).
  repeat split.
Qed.

(** X12.  With [autoSaveId] set and nothing stored for the group, the sizes
    computed from the defaults are saved by the render that follows: the
    effect commits them, and the save step hands exactly these sizes to
    [savePanelGroupLayout]. *)
Theorem default_layout_is_saved (g : Group) (key : string) :
  let layout := map (defaultShare (sortedPanels g)) (sortedPanels g) in
  let pass := effect ;; commit ;; save in
  truthy (autoSaveId props) = Some key ->
  unsettled g ->
  loadPanelLayout (storage g) key (sortedPanels g) = None ->
  gt (totalDefault (sortedPanels g)) 100 = false ->
  gt (totalMin (sortedPanels g)) 100 = false ->
  List.length (sortedPanels g) = JsMap.size (contents (panels g)) ->
  JsMap.size (contents (panels g)) <> 0 ->
  completion pass g = Normal tt
  /\ calls (exec pass g)
     = (calls g
        ++ [CallSetSizes (mkObj (nextAddr g) layout);
            CallSavePanelGroupLayout key (sortedPanels g) layout])%list
  /\ storage (exec pass g)
     = savePanelGroupLayout key (sortedPanels g) layout (storage g).
Proof.
  intros layout pass Hkey Hlen Hload Hdefault Hmin Hsorted Hsome.
  assert (Hnone : nothingRestored loadPanelLayout props (sortedPanels g) g).
  { unfold nothingRestored. rewrite Hkey. exact Hload. }
  assert (Hrun :
    pass g
    = save (committed (committing layout g))).
  { subst pass. unfold bind at 1.
    rewrite (initialSizesEffect_defaults panelsMapToSortedArray
               loadPanelLayout props g Hlen Hnone), Hdefault, Hmin.
    reflexivity. }
  unfold completion, exec. rewrite Hrun.
  rewrite (saveEffect_runs _ key Hkey).
  - cbn. rewrite <- app_assoc. repeat split.
  - cbn. subst layout. intro Hnil.
    apply (f_equal (@List.length float)) in Hnil.
    rewrite length_map in Hnil. simpl in Hnil. lia.
  - cbn. subst layout. rewrite length_map. exact Hsorted.
Qed.

End SizingPasses.

(** Defaults of 60 and 50 and minima of 60 and 50: both sums are over 100,
    and the error is the one about the default sizes. *)
Lemma default_size_error_comes_first_witness :
  let g := mounted plainProps [] oversizedTwice in
  gt (totalDefault (registrationOrder (contents (panels g)))) 100 = true
  /\ gt (totalMin (registrationOrder (contents (panels g)))) 100 = true
  /\ sampleInitialSizes plainProps g = (Thrown defaultSizeMessage, g).
Proof.
  cbv zeta. split; [reflexivity |]. split; [reflexivity |].
  apply (default_size_error_comes_first registrationOrder sampleLoad plainProps
           (mounted plainProps [] oversizedTwice)).
  - vm_compute. discriminate.
  - exact I.
  - left. reflexivity.
Defined.

(** Defaults of 20 and 30 are committed as 20 and 30. *)
Lemma explicit_defaults_are_kept_witness :
  let g := mounted plainProps [] twentyAndThirty in
  completion (sampleInitialSizes plainProps) g = Normal tt
  /\ map Some (contents (sizes (exec (sampleInitialSizes plainProps) g)))
     = [Some 20; Some 30]%float.
Proof.
  cbv zeta.
  apply (explicit_defaults_are_kept registrationOrder sampleLoad plainProps
           (mounted plainProps [] twentyAndThirty)).
  - vm_compute. discriminate.
  - exact I.
  - reflexivity.
  - reflexivity.
  - intros p [Hp | [Hp | []]]; subst p; discriminate.
Defined.

Lemma sizing_pass_is_idempotent_witness :
  let g := mounted plainProps [] threePanels in
  let g1 := exec (sampleInitialSizes plainProps ;; commitValues plainProps) g in
  List.length (contents (sizes g1)) = JsMap.size (contents (panels g1))
  /\ sampleInitialSizes plainProps g1 = (Normal tt, g1).
Proof.
  cbv zeta.
  apply (sizing_pass_is_idempotent registrationOrder sampleLoad plainProps
           (mounted plainProps [] threePanels)).
  - vm_compute. discriminate.
  - exact I.
  - reflexivity.
  - reflexivity.
  - reflexivity.
Defined.

(** Two halves, then a third panel registers: each gets a third. *)
Lemma late_registration_resets_sizes_witness :
  let g := settled plainProps [] halves in
  let pass :=
    registerPanel "late" lateComer ;; commitValues plainProps ;;
    sampleInitialSizes plainProps in
  let third := (100 / 3)%float in
  contents (sizes g) = [50; 50]%float
  /\ completion pass g = Normal tt
  /\ contents (sizes (exec pass g)) = [third; third; third].
Proof.
  cbv zeta. split; [reflexivity |].
  apply (late_registration_resets_sizes registrationOrder sampleLoad plainProps
           (settled plainProps [] halves) "late" lateComer).
  - reflexivity.
  - reflexivity.
  - exact I.
  - reflexivity.
  - reflexivity.
Defined.


Lemma settled_layout_is_saved_witness :
  let g := settled savingProps [] halves in
  let run := exec (sampleSaveEffect savingProps) g in
  completion (sampleSaveEffect savingProps) g = Normal tt
  /\ calls run
     = (calls g
        ++ [CallSavePanelGroupLayout "layout" halves [50; 50]%float])%list
  /\ storage run = [("layout", "saved")]
  /\ sizes run = sizes g
  /\ panels run = panels g.
Proof.
  cbv zeta.
  apply (settled_layout_is_saved registrationOrder sampleSave savingProps
           (settled savingProps [] halves) "layout").
  - reflexivity.
  - vm_compute. discriminate.
  - reflexivity.
Defined.

Lemma default_layout_is_saved_witness :
  let g := mounted savingProps [] halves in
  let pass :=
    sampleInitialSizes savingProps ;; commitValues savingProps ;;
    sampleSaveEffect savingProps in
  completion pass g = Normal tt
  /\ calls (exec pass g)
     = (calls g
        ++ [CallSetSizes (mkObj (nextAddr g) [50; 50]%float);
            CallSavePanelGroupLayout "layout" halves [50; 50]%float])%list
  /\ storage (exec pass g) = [("layout", "saved")].
Proof.
  cbv zeta.
  apply (default_layout_is_saved registrationOrder sampleLoad sampleSave
           savingProps (mounted savingProps [] halves) "layout").
  - reflexivity.
  - vm_compute. discriminate.
  - reflexivity.
  - reflexivity.
  - reflexivity.
  - reflexivity.
  - vm_compute. discriminate.
Defined.

Section RestoredPass.

Variable panelsMapToSortedArray : PanelDataMap -> list PanelData.
Variable loadPanelLayout :
  Storage -> string -> list PanelData -> option (list float).
Variable props : Props.

Local Abbreviation effect :=
  (initialSizesEffect panelsMapToSortedArray loadPanelLayout props).

(** X13.  A restored layout with one size per panel settles the group: after
    the effect has adopted it and the next render has committed the values,
    the sizes are the loaded ones and the effect does nothing more (it does
    not load again). *)
Theorem restored_pass_is_idempotent (g : Group) (key : string)
  (loaded : list float) :
  let g1 := exec (effect ;; commitValues props) g in
  List.length (contents (cv_sizes (committedValuesRef g)))
  <> JsMap.size (contents (panels g)) ->
  truthy (autoSaveId props) = Some key ->
  loadPanelLayout (storage g) key
    (panelsMapToSortedArray (contents (panels g))) = Some loaded ->
  List.length loaded = JsMap.size (contents (panels g)) ->
  contents (sizes g1) = loaded
  /\ contents (cv_sizes (committedValuesRef g1)) = loaded
  /\ effect g1 = (Normal tt, g1).
Proof.
  intros g1 Hlen Hkey Hload Hloaded.
  assert (Hrun :
    (effect ;; commitValues props) g
    = (Normal tt,
       withCommittedValuesRef
         (mkCommitted (direction props) (panels g) (mkObj (nextAddr g) loaded))
         (logCall (CallSetSizes (mkObj (nextAddr g) loaded))
            (withSizes (mkObj (nextAddr g) loaded)
               (withNextAddr (S (nextAddr g)) g))))).
  { unfold bind.
    rewrite (initialSizesEffect_restored panelsMapToSortedArray loadPanelLayout
               props g key loaded Hlen Hkey Hload).
    reflexivity. }
  subst g1. unfold exec. rewrite Hrun. cbn [snd].
  split; [reflexivity |]. split; [reflexivity |].
  apply initialSizesEffect_settled. exact Hloaded.
Qed.

End RestoredPass.

Lemma restored_pass_is_idempotent_witness :
  let g := mounted savingProps [("layout", "saved")] sixtyAndFifty in
  let g1 :=
    exec (sampleInitialSizes savingProps ;; commitValues savingProps) g in
  contents (sizes g1) = [25; 75]%float
  /\ contents (cv_sizes (committedValuesRef g1)) = [25; 75]%float
  /\ sampleInitialSizes savingProps g1 = (Normal tt, g1).
Proof.
  cbv zeta.
  apply (restored_pass_is_idempotent registrationOrder sampleLoad savingProps
           (mounted savingProps [("layout", "saved")] sixtyAndFifty)
           "layout" [25; 75]%float).
  - vm_compute. discriminate.
  - reflexivity.
  - reflexivity.
  - reflexivity.
Defined.

(** ** Resize events that reach the sizes *)

Section Committing.

Variable ResizeEvent : Type.
Variable panelsMapToSortedArray : PanelDataMap -> list PanelData.
Variable getResizeHandlePanelIds :
  string -> string -> list PanelData -> option string * option string.
Variable getMovement :
  ResizeEvent -> string -> string -> Direction -> float -> float.
Variable getBoundingClientRect : string -> float * float.
Variable adjustByDelta :
  Obj PanelDataMap -> string -> string -> float -> Obj (list float) ->
  M (Obj (list float)).
Variable props : Props.

Local Abbreviation handler :=
  (resizeHandler ResizeEvent panelsMapToSortedArray getResizeHandlePanelIds
     getMovement getBoundingClientRect adjustByDelta props).
Local Abbreviation movementOf g handleId event :=
  (getMovement event (groupId props) handleId
     (cv_direction (committedValuesRef g)) (dragOffsetRef g)).
Local Abbreviation deltaOf g handleId event :=
  ((movementOf g handleId event
    / match cv_direction (committedValuesRef g) with
      | horizontal => fst (getBoundingClientRect (groupId props))
      | vertical => snd (getBoundingClientRect (groupId props))
      end) * 100)%float.
Local Abbreviation handlePanelIds g handleId :=
  (getResizeHandlePanelIds (groupId props) handleId
     (panelsMapToSortedArray (contents (cv_panels (committedValuesRef g))))).

(** X14.  A resize event with a movement other than zero asks
    [adjustByDelta] for new sizes, with the committed panels and sizes and
    the movement as a percentage of the group's extent along its direction;
    when the answer is another array than the committed one, that array is
    handed to [setSizes], and nothing else is changed: the committed values
    stay as they are until the next render. *)
Theorem resize_commits_the_adjusted_sizes (g g' : Group) (handleId : string)
  (event : ResizeEvent) (idBefore idAfter : string)
  (nextSizes : Obj (list float)) :
  let run := exec (handler handleId event) g in
  handlePanelIds g handleId = (Some idBefore, Some idAfter) ->
  strictEq (movementOf g handleId event) 0 = false ->
  adjustByDelta (cv_panels (committedValuesRef g)) idBefore idAfter
    (deltaOf g handleId event) (cv_sizes (committedValuesRef g))
    (logCall CallPreventDefault g)
  = (Normal nextSizes, g') ->
  sameRef (cv_sizes (committedValuesRef g)) nextSizes = false ->
  handler handleId event g
  = (Normal tt, logCall (CallSetSizes nextSizes) (withSizes nextSizes g'))
  /\ sizes run = nextSizes
  /\ panels run = panels g'
  /\ activeHandleId run = activeHandleId g'
  /\ dragOffsetRef run = dragOffsetRef g'
  /\ committedValuesRef run = committedValuesRef g'.
Proof.
  intros run Hids Hmove Hadjust Hsame.
  assert (Hrun :
    handler handleId event g
    = (Normal tt, logCall (CallSetSizes nextSizes) (withSizes nextSizes g'))).
  { unfold strictEq in Hmove.
    unfold resizeHandler, bind, modify, gets. cbn.
    rewrite Hids. cbn. rewrite Hmove, Hadjust, Hsame. reflexivity. }
  split; [exact Hrun |]. subst run. unfold exec. rewrite Hrun.
  repeat split.
Qed.

(** X15.  A resize event on a handle that has no panel on one of its sides
    is dropped, whatever the movement: only [event.preventDefault()] has
    been called, and [adjustByDelta] and [setSizes] are not reached. *)
Theorem resize_without_neighbours_is_a_no_op (g : Group) (handleId : string)
  (event : ResizeEvent) :
  let run := exec (handler handleId event) g in
  fst (handlePanelIds g handleId) = None
  \/ snd (handlePanelIds g handleId) = None ->
  handler handleId event g = (Normal tt, logCall CallPreventDefault g)
  /\ sizes run = sizes g
  /\ nextAddr run = nextAddr g
  /\ calls run = (calls g ++ [CallPreventDefault])%list.
Proof.
  intros run Hids.
  assert (Hrun :
    handler handleId event g = (Normal tt, logCall CallPreventDefault g)).
  { unfold resizeHandler, bind, modify, gets. cbn.
    destruct (handlePanelIds g handleId) as [[idBefore |] [idAfter |]];
      try reflexivity.
    destruct Hids as [Hids | Hids]; discriminate. }
  split; [exact Hrun |]. subst run. unfold exec. rewrite Hrun.
  repeat split.
Qed.

End Committing.

(** Two halves and a pointer 10 pixels before the handle: 5 percent move
    from the first panel to the second, in a new array. *)
Lemma resize_commits_the_adjusted_sizes_witness :
  let g := settled plainProps [] halves in
  let event := mkPointer 90 0 in
  let nextSizes := mkObj (nextAddr g) [45; 55]%float in
  let g' := withNextAddr (S (nextAddr g)) (logCall CallPreventDefault g) in
  let run := exec (sampleResize plainProps "handle" event) g in
  sampleResize plainProps "handle" event g
  = (Normal tt, logCall (CallSetSizes nextSizes) (withSizes nextSizes g'))
  /\ sizes run = nextSizes
  /\ panels run = panels g'
  /\ activeHandleId run = activeHandleId g'
  /\ dragOffsetRef run = dragOffsetRef g'
  /\ committedValuesRef run = committedValuesRef g'.
Proof.
  cbv zeta.
  apply (resize_commits_the_adjusted_sizes PointerEvent registrationOrder
           sampleHandleIds sampleMovement sampleRect
           (adjust pairResolve pairRedistribute) plainProps
           (settled plainProps [] halves)
           (withNextAddr (S (nextAddr (settled plainProps [] halves)))
              (logCall CallPreventDefault (settled plainProps [] halves)))
           "handle" (mkPointer 90 0) "a" "b"
           (mkObj (nextAddr (settled plainProps [] halves)) [45; 55]%float)).
  all: vm_compute; reflexivity.
Defined.

(** A group of one panel has no pair of panels for a handle. *)
Lemma resize_without_neighbours_is_a_no_op_witness :
  let g := settled plainProps [] [panel "only" None 0 100] in
  let event := mkPointer 150 0 in
  let run := exec (sampleResize plainProps "handle" event) g in
  strictEq (sampleMovement event "group" "handle" horizontal (dragOffsetRef g)) 0
  = false
  /\ sampleResize plainProps "handle" event g
     = (Normal tt, logCall CallPreventDefault g)
  /\ sizes run = sizes g
  /\ nextAddr run = nextAddr g
  /\ calls run = (calls g ++ [CallPreventDefault])%list.
Proof.
  cbv zeta. split; [reflexivity |].
  apply (resize_without_neighbours_is_a_no_op PointerEvent registrationOrder
           sampleHandleIds sampleMovement sampleRect
           (adjust pairResolve pairRedistribute) plainProps
           (settled plainProps [] [panel "only" None 0 100]) "handle"
           (mkPointer 150 0)).
  left. reflexivity.
Defined.

(** ** A drag from start to end *)

Section DragFlow.

Variable ResizeEvent : Type.
Variable panelsMapToSortedArray : PanelDataMap -> list PanelData.
Variable getResizeHandlePanelIds :
  string -> string -> list PanelData -> option string * option string.
Variable getMovement :
  ResizeEvent -> string -> string -> Direction -> float -> float.
Variable getDragOffset : ResizeEvent -> string -> Direction -> float.
Variable getBoundingClientRect : string -> float * float.
Variable adjustByDelta :
  Obj PanelDataMap -> string -> string -> float -> Obj (list float) ->
  M (Obj (list float)).
Variable props : Props.

Local Abbreviation start := (startDragging ResizeEvent getDragOffset props).
Local Abbreviation handler :=
  (resizeHandler ResizeEvent panelsMapToSortedArray getResizeHandlePanelIds
     getMovement getBoundingClientRect adjustByDelta props).

(** X16.  A drag that starts and stops leaves no handle active and keeps the
    offset captured at its start (stopping does not reset it); panels, sizes
    and committed values are not touched, and the two calls to
    [setActiveHandleId] are the only ones made. *)
Theorem drag_session_ends_idle (g : Group) (handleId : string)
  (event : ResizeEvent) :
  let session := start handleId event ;; stopDragging in
  let run := exec session g in
  completion session g = Normal tt
  /\ activeHandleId run = None
  /\ dragOffsetRef run = getDragOffset event handleId (direction props)
  /\ panels run = panels g
  /\ sizes run = sizes g
  /\ committedValuesRef run = committedValuesRef g
  /\ calls run
     = (calls g
        ++ [CallSetActiveHandleId (Some handleId);
            CallSetActiveHandleId None])%list.
Proof.
  cbv zeta. unfold exec, completion. cbn.
  rewrite <- app_assoc. repeat split.
Qed.

(** X17.  The offset captured at drag start is the one the resize handler
    passes to [getMovement]: an event whose movement, taken with that
    offset and along the committed direction, is zero changes nothing after
    the drag has started. *)
Theorem resize_uses_the_captured_offset (g : Group)
  (dragged handleId : string) (startEvent event : ResizeEvent) :
  let g1 := exec (start dragged startEvent) g in
  strictEq
    (getMovement event (groupId props) handleId
       (cv_direction (committedValuesRef g))
       (getDragOffset startEvent dragged (direction props))) 0 = true ->
  handler handleId event g1 = (Normal tt, logCall CallPreventDefault g1)
  /\ sizes (exec (handler handleId event) g1) = sizes g.
Proof.
  intros g1 Hmove.
  assert (Hrun :
    handler handleId event g1 = (Normal tt, logCall CallPreventDefault g1)).
  { apply resizeHandler_no_movement. exact Hmove. }
  split; [exact Hrun |]. unfold exec at 1. rewrite Hrun. reflexivity.
Qed.

End DragFlow.

(** Grabbing the handle 10 pixels off its position and not moving: the
    movement is zero. *)
Lemma resize_uses_the_captured_offset_witness :
  let g := settled plainProps [] halves in
  let event := mkPointer 110 0 in
  let g1 := exec (startDragging PointerEvent sampleDragOffset plainProps
                    "handle" event) g in
  dragOffsetRef g1 = 10%float
  /\ sampleResize plainProps "handle" event g1
     = (Normal tt, logCall CallPreventDefault g1)
  /\ sizes (exec (sampleResize plainProps "handle" event) g1) = sizes g.
Proof.
  cbv zeta. split; [reflexivity |].
  apply (resize_uses_the_captured_offset PointerEvent registrationOrder
           sampleHandleIds sampleMovement sampleDragOffset sampleRect
           (adjust pairResolve pairRedistribute) plainProps
           (settled plainProps [] halves) "handle" "handle"
           (mkPointer 110 0) (mkPointer 110 0)).
  reflexivity.
Defined.

(** ** What the initial-size effect touches *)

Lemma totalDefault_without_defaults (panelsArray : list PanelData) :
  (forall p : PanelData, In p panelsArray -> defaultSize p = None) ->
  totalDefault panelsArray = 0%float.
Proof.
  unfold totalDefault. generalize 0%float.
  induction panelsArray as [| p rest IH]; intros acc Hall; simpl.
  - reflexivity.
  - rewrite (Hall p (or_introl eq_refl)). apply IH.
    intros q Hq. apply Hall. right. exact Hq.
Qed.

Lemma map_constant {A B : Type} (f : A -> B) (c : B) (l : list A) :
  (forall a : A, In a l -> f a = c) -> map f l = repeat c (List.length l).
Proof.
  induction l as [| a rest IH]; intro Hall; simpl.
  - reflexivity.
  - rewrite (Hall a (or_introl eq_refl)). f_equal.
    apply IH. intros b Hb. apply Hall. right. exact Hb.
Qed.

Section EffectFrame.

Variable panelsMapToSortedArray : PanelDataMap -> list PanelData.
Variable loadPanelLayout :
  Storage -> string -> list PanelData -> option (list float).
Variable props : Props.

Local Abbreviation effect :=
  (initialSizesEffect panelsMapToSortedArray loadPanelLayout props).
Local Abbreviation sortedPanels g := (panelsMapToSortedArray (contents (panels g))).

(** X18.  When no panel has an explicit default size, the space is split
    evenly: every panel receives the same size, 100 divided by the number
    of panels as the code counts them. *)
Theorem panels_without_defaults_share_evenly (g : Group) :
  List.length (contents (cv_sizes (committedValuesRef g)))
  <> JsMap.size (contents (panels g)) ->
  nothingRestored loadPanelLayout props (sortedPanels g) g ->
  gt (totalMin (sortedPanels g)) 100 = false ->
  (forall p : PanelData, In p (sortedPanels g) -> defaultSize p = None) ->
  completion effect g = Normal tt
  /\ contents (sizes (exec effect g))
     = repeat ((100 - 0) / nullCount (sortedPanels g))%float
         (List.length (sortedPanels g)).
Proof.
  intros Hlen Hnone Hmin Hall. unfold completion, exec.
  rewrite (initialSizesEffect_defaults panelsMapToSortedArray loadPanelLayout
             props g Hlen Hnone).
  rewrite (totalDefault_without_defaults _ Hall).
  change (gt 0 100) with false. cbv beta iota. rewrite Hmin.
  cbn. split; [reflexivity |].
  assert (Hshare : forall p : PanelData,
    In p (sortedPanels g) ->
    defaultShare (sortedPanels g) p
    = ((100 - 0) / nullCount (sortedPanels g))%float).
  { intros p Hp. unfold defaultShare.
    rewrite (Hall p Hp), (totalDefault_without_defaults _ Hall). reflexivity. }
  apply map_constant, Hshare.
Qed.

(** X19.  Whatever path it takes, the initial-size effect leaves the store,
    the panels, the active handle, the drag offset and the committed values
    alone, and calls [setSizes] at most once: either no call is made, or
    the one call made is [setSizes] with the array that is then the sizes
    state. *)
Theorem initial_size_effect_only_sets_sizes (g : Group) :
  let run := exec effect g in
  storage run = storage g
  /\ panels run = panels g
  /\ activeHandleId run = activeHandleId g
  /\ dragOffsetRef run = dragOffsetRef g
  /\ committedValuesRef run = committedValuesRef g
  /\ (calls run = calls g /\ sizes run = sizes g
      \/ calls run = (calls g ++ [CallSetSizes (sizes run)])%list
         /\ addrOf (sizes run) = nextAddr g).
Proof.
  cbv zeta. unfold exec.
  destruct (Nat.eq_dec
              (List.length (contents (cv_sizes (committedValuesRef g))))
              (JsMap.size (contents (panels g)))) as [Hlen | Hlen].
  - rewrite (initialSizesEffect_settled panelsMapToSortedArray loadPanelLayout
               props g Hlen).
    cbn. repeat split. left. split; reflexivity.
  - destruct (truthy (autoSaveId props)) as [key |] eqn:Hkey.
    + destruct (loadPanelLayout (storage g) key (sortedPanels g))
        as [loaded |] eqn:Hload.
      * rewrite (initialSizesEffect_restored panelsMapToSortedArray
                   loadPanelLayout props g key loaded Hlen Hkey Hload).
        cbn. repeat split. right. split; reflexivity.
      * rewrite (initialSizesEffect_defaults panelsMapToSortedArray
                   loadPanelLayout props g Hlen)
          by (unfold nothingRestored; rewrite Hkey; exact Hload).
        destruct (gt (totalDefault (sortedPanels g)) 100);
          [| destruct (gt (totalMin (sortedPanels g)) 100)];
          cbn; repeat split;
          solve [left; split; reflexivity | right; split; reflexivity].
    + rewrite (initialSizesEffect_defaults panelsMapToSortedArray
                 loadPanelLayout props g Hlen)
        by (unfold nothingRestored; rewrite Hkey; exact I).
      destruct (gt (totalDefault (sortedPanels g)) 100);
        [| destruct (gt (totalMin (sortedPanels g)) 100)];
        cbn; repeat split;
        solve [left; split; reflexivity | right; split; reflexivity].
Qed.

End EffectFrame.

Lemma panels_without_defaults_share_evenly_witness :
  let g := mounted plainProps [] threePanels in
  let third := (100 / 3)%float in
  completion (sampleInitialSizes plainProps) g = Normal tt
  /\ contents (sizes (exec (sampleInitialSizes plainProps) g))
     = [third; third; third].
Proof.
  cbv zeta.
  apply (panels_without_defaults_share_evenly registrationOrder sampleLoad
           plainProps (mounted plainProps [] threePanels)).
  - vm_compute. discriminate.
  - exact I.
  - reflexivity.
  - intros p [Hp | [Hp | [Hp | []]]]; subst p; reflexivity.
Defined.
